(** * fintracker import pipeline: column mapper and CSV parser

    A shallow embedding of [src/services/columnMapper.ts] and
    [src/services/csvParser.ts], and the properties of the import pipeline
    stated over it.

    Conventions of the embedding.
    - A JavaScript string is a [string] (a list of [ascii]); case folding and
      the whitespace class [\s] are the ASCII ones, characters above 127 are
      left alone.
    - An array is a [list]; [arr[i]] is [nth_error], with [None] for
      [undefined], so that [arr[i] || ''] is the empty string both for a
      missing index and for an empty cell.
    - An object used as a record of named string fields ([Record<string,
      string>]) is an association list in insertion order, which is the order
      [Object.keys] and [Object.values] enumerate.
    - A [ColumnMapping] is the list of its entries in [Object.entries] order
      (ascending column index).
    - Integers are [Z]. *)

From Stdlib Require Import String Ascii List ZArith Lia Bool Arith.
From Stdlib Require Import DecimalString.
Import ListNotations.

Open Scope string_scope.
Open Scope Z_scope.

(* ================================================================= *)
(** ** JavaScript string primitives used by the two services *)

Module JS.

Definition truthy (s : string) : bool := negb (String.eqb s "").

(** [a || b] on strings. *)
Definition orElse (a b : string) : string := if truthy a then a else b.

(** [a || b] where [a] may be [undefined]. *)
Definition orElseOpt (a : option string) (b : string) : string :=
  match a with
  | Some s => orElse s b
  | None => b
  end.

Definition truthyOpt (a : option string) : bool :=
  match a with
  | Some s => truthy s
  | None => false
  end.

Definition isSpace (c : ascii) : bool :=
  let n := nat_of_ascii c in
  (Nat.eqb n 32 || (Nat.leb 9 n && Nat.leb n 13))%bool.

Definition isDigit (c : ascii) : bool :=
  let n := nat_of_ascii c in (Nat.leb 48 n && Nat.leb n 57)%bool.

Definition lowerChar (c : ascii) : ascii :=
  let n := nat_of_ascii c in
  if (Nat.leb 65 n && Nat.leb n 90)%bool then ascii_of_nat (n + 32) else c.

Fixpoint toLowerCase (s : string) : string :=
  match s with
  | EmptyString => EmptyString
  | String c r => String (lowerChar c) (toLowerCase r)
  end.

Fixpoint trimStart (s : string) : string :=
  match s with
  | EmptyString => EmptyString
  | String c r => if isSpace c then trimStart r else s
  end.

Fixpoint rev (s : string) : string :=
  match s with
  | EmptyString => EmptyString
  | String c r => rev r ++ String c EmptyString
  end.

Definition trimEnd (s : string) : string := rev (trimStart (rev s)).

Definition trim (s : string) : string := trimEnd (trimStart s).

Fixpoint startsWith (p s : string) : bool :=
  match p, s with
  | EmptyString, _ => true
  | String _ _, EmptyString => false
  | String a p', String b s' => (Ascii.eqb a b && startsWith p' s')%bool
  end.

(** [s.includes(sub)]. *)
Fixpoint includes (s sub : string) : bool :=
  (startsWith sub s ||
   match s with
   | EmptyString => false
   | String _ r => includes r sub
   end)%bool.

(** [s.includes(c)] for a one-character string [c]. *)
Fixpoint includesChar (s : string) (c : ascii) : bool :=
  match s with
  | EmptyString => false
  | String a r => (Ascii.eqb a c || includesChar r c)%bool
  end.

(** [s.replace(/[cls]+/g, ' ')]: every maximal run of characters of the
    class becomes one space. *)
Fixpoint replaceRuns (cls : ascii -> bool) (inRun : bool) (s : string) : string :=
  match s with
  | EmptyString => EmptyString
  | String c r =>
      if cls c
      then if inRun then replaceRuns cls true r
           else String " "%char (replaceRuns cls true r)
      else String c (replaceRuns cls false r)
  end.

(** [s.replace(/[cls]/g, '')]. *)
Fixpoint removeChars (cls : ascii -> bool) (s : string) : string :=
  match s with
  | EmptyString => EmptyString
  | String c r => if cls c then removeChars cls r else String c (removeChars cls r)
  end.

(** [s.split(sep)] for a one-character separator: never the empty list. *)
Fixpoint splitAux (sep : ascii) (cur : string) (s : string) : list string :=
  match s with
  | EmptyString => [rev cur]
  | String c r =>
      if Ascii.eqb c sep then rev cur :: splitAux sep EmptyString r
      else splitAux sep (String c cur) r
  end.

Definition split (sep : ascii) (s : string) : list string := splitAux sep EmptyString s.

(** [arr.join(sep)]. *)
Fixpoint join (sep : string) (l : list string) : string :=
  match l with
  | [] => EmptyString
  | [x] => x
  | x :: r => x ++ sep ++ join sep r
  end.

(** [arr.findIndex(p)]: [-1] when no element satisfies [p]. *)
Fixpoint findIndexFrom {A} (p : A -> bool) (i : Z) (l : list A) : Z :=
  match l with
  | [] => -1
  | x :: r => if p x then i else findIndexFrom p (i + 1) r
  end.

Definition findIndex {A} (p : A -> bool) (l : list A) : Z := findIndexFrom p 0 l.

(** [arr[i]] for a possibly negative index: [undefined] is [None]. *)
Definition at_ {A} (l : list A) (i : Z) : option A :=
  if i <? 0 then None else nth_error l (Z.to_nat i).

End JS.

(* ================================================================= *)
(** ** columnMapper.ts *)

Module ColumnMapper.

Inductive ColumnType :=
| T_type | T_date | T_description | T_amount | T_debit | T_credit
| T_category | T_account | T_frequency | T_name | T_balance | T_total
| T_ignore.

Definition ColumnType_eqb (a b : ColumnType) : bool :=
  match a, b with
  | T_type, T_type | T_date, T_date | T_description, T_description
  | T_amount, T_amount | T_debit, T_debit | T_credit, T_credit
  | T_category, T_category | T_account, T_account
  | T_frequency, T_frequency | T_name, T_name | T_balance, T_balance
  | T_total, T_total | T_ignore, T_ignore => true
  | _, _ => false
  end.

Inductive FileFormat := BankStatement | FinancialStatement | Simple | Unknown.

(** Entries in [Object.entries] order: ascending column index. *)
Definition ColumnMapping := list (nat * ColumnType).

(** [confidence] is a JavaScript number: [None] stands for [NaN], which is
    what the empty header list gives (0 / 0). *)
Record DetectedColumns := {
  mapping : ColumnMapping;
  confidence : option Z;
  detectedFormat : FileFormat;
  suggestions : list (nat * list ColumnType)
}.

(** The catalog, in the order [Object.entries(COLUMN_ALIASES)] yields it. *)
Definition COLUMN_ALIASES : list (ColumnType * list string) :=
  [ (T_type, ["type"; "txtype"; "transaction type"; "kind"; "category type"]);
    (T_date, ["date"; "transaction date"; "posting date"; "date posted";
              "trans date"; "date of transaction"]);
    (T_description, ["description"; "memo"; "detail"; "transaction description";
                     "note"; "narrative"; "details"; "name"]);
    (T_amount, ["amount"; "amt"; "transaction amount"; "value"; "total"; "sum"]);
    (T_debit, ["debit"; "debit amount"; "withdrawal"; "debit amt"; "expenses"; "out"]);
    (T_credit, ["credit"; "credit amount"; "deposit"; "credit amt"; "income"; "in"]);
    (T_category, ["category"; "cat"; "expense category"; "income category"; "type"]);
    (T_account, ["account"; "account name"; "account #"; "account number"; "acct"]);
    (T_frequency, ["frequency"; "freq"; "recurring"; "period"; "cadence"]);
    (T_name, ["name"; "account name"; "item name"; "description"; "title"]);
    (T_balance, ["balance"; "running balance"; "balance after"; "account balance"; "bal"]);
    (T_total, ["total"; "subtotal"; "sum"; "amount total"]);
    (T_ignore, []) ].

Fixpoint aliasesOf (t : ColumnType) (cat : list (ColumnType * list string)) : list string :=
  match cat with
  | [] => []
  | (t', al) :: r => if ColumnType_eqb t t' then al else aliasesOf t r
  end.

(** The character class of the first [replace] in [normalizeHeader]. *)
Definition isSeparator (c : ascii) : bool :=
  (JS.isSpace c || Ascii.eqb c "_" || Ascii.eqb c "-" || Ascii.eqb c "/"
   || Ascii.eqb c "\")%bool.

Definition normalizeHeader (header : string) : string :=
  JS.trim
    (JS.replaceRuns JS.isSpace false
       (JS.replaceRuns isSeparator false
          (JS.trim (JS.toLowerCase header)))).

(** The loop of [isSimilar] counting the characters of [shorter] that occur
    in [longer]. *)
Fixpoint commonChars (longer shorter : string) : Z :=
  match shorter with
  | EmptyString => 0
  | String c r =>
      (if JS.includesChar longer c then 1 else 0) + commonChars longer r
  end.

(** [isSimilar] with its default threshold 0.7.  The final comparison
    [commonChars / longer.length >= 0.7] is taken on the exact quotient:
    [10 * commonChars >= 7 * longer.length]. *)
Definition isSimilar (str1 str2 : string) : bool :=
  if (negb (JS.truthy str1) || negb (JS.truthy str2))%bool then false
  else if (JS.includes str1 str2 || JS.includes str2 str1)%bool then true
  else
    let l1 := String.length str1 in
    let l2 := String.length str2 in
    let longer := if Nat.ltb l2 l1 then str1 else str2 in
    let shorter := if Nat.ltb l2 l1 then str2 else str1 in
    7 * Z.of_nat (String.length longer) <=? 10 * commonChars longer shorter.

(** The callback of the [reduce] in [detectColumnType]. *)
Definition matchStep (normalized : string) (score : Z) (alias : string) : Z :=
  if String.eqb alias normalized then score + 100
  else if JS.includes normalized alias then score + 80
  else if JS.includes alias normalized then score + 60
  else if isSimilar normalized alias then score + 40
  else score.

Definition matchScore (normalized : string) (aliases : list string) : Z :=
  fold_left (matchStep normalized) aliases 0.

(** The callback of the [map] in [scoreSuggestion]. *)
Definition aliasScore (normalized alias : string) : Z :=
  if String.eqb normalized alias then 100
  else if JS.includes normalized alias then 80
  else if JS.includes alias normalized then 60
  else if isSimilar normalized alias then 40
  else 0.

(** [Math.max(...xs)]: [None] stands for [-Infinity], the value on no
    argument. *)
Definition mathMax (xs : list Z) : option Z :=
  fold_left (fun acc x =>
               match acc with
               | None => Some x
               | Some a => Some (Z.max a x)
               end) xs None.

Definition scoreSuggestion (normalized : string) (columnType : ColumnType) : option Z :=
  mathMax (map (aliasScore normalized) (aliasesOf columnType COLUMN_ALIASES)).

(** Whether the comparator [(a, b) => score(b) - score(a)] is positive, that
    is, whether [b] must come before [a].  A difference of two [-Infinity]
    is [NaN], which [sort] reads as 0. *)
Definition comesBefore (normalized : string) (b a : ColumnType) : bool :=
  match scoreSuggestion normalized b, scoreSuggestion normalized a with
  | Some sb, Some sa => sa <? sb
  | Some _, None => true
  | None, _ => false
  end.

(** [Array.prototype.sort] is stable: a stable insertion sort, in which an
    element goes before the later elements that do not beat it. *)
Fixpoint insertSorted (normalized : string) (x : ColumnType) (l : list ColumnType)
  : list ColumnType :=
  match l with
  | [] => [x]
  | y :: r =>
      if comesBefore normalized y x then y :: insertSorted normalized x r
      else x :: l
  end.

Definition sortSuggestions (normalized : string) (l : list ColumnType) : list ColumnType :=
  fold_right (insertSorted normalized) [] l.

Record DetectedType := {
  dtype : ColumnType;
  dconfidence : Z;
  dsuggestions : list ColumnType
}.

(** The [for ... of Object.entries(COLUMN_ALIASES)] loop, with its three
    locals and its early [return] on an exact alias. *)
Fixpoint detectLoop (normalized : string) (cat : list (ColumnType * list string))
  (sugg : list ColumnType) (bestMatch : ColumnType) (bestScore : Z) : DetectedType :=
  match cat with
  | [] =>
      let confidence := Z.min bestScore 100 in
      let topSuggestions := firstn 3 (sortSuggestions normalized sugg) in
      {| dtype := bestMatch;
         dconfidence := confidence;
         dsuggestions := match topSuggestions with
                         | [] => [bestMatch]
                         | _ => topSuggestions
                         end |}
  | (cType, aliases) :: rest =>
      if existsb (fun alias => String.eqb normalized alias) aliases
      then {| dtype := cType; dconfidence := 100; dsuggestions := [cType] |}
      else
        let score := matchScore normalized aliases in
        if 0 <? score
        then
          if bestScore <? score
          then detectLoop normalized rest (sugg ++ [cType])%list cType score
          else detectLoop normalized rest (sugg ++ [cType])%list bestMatch bestScore
        else detectLoop normalized rest sugg bestMatch bestScore
  end.

Definition detectColumnType (header : string) (columnIndex : nat)
  (allHeaders : list string) : DetectedType :=
  detectLoop (normalizeHeader header) COLUMN_ALIASES [] T_ignore 0.

Definition includesType (types : list ColumnType) (t : ColumnType) : bool :=
  existsb (ColumnType_eqb t) types.

Definition detectFileFormat (m : ColumnMapping) (headers : list string) : FileFormat :=
  let types := map snd m in
  let headerText := JS.toLowerCase (JS.join " " headers) in
  let hasDate := includesType types T_date in
  let hasDescription := includesType types T_description in
  let hasAmount := (includesType types T_amount || includesType types T_debit
                    || includesType types T_credit)%bool in
  if (hasDate && hasDescription && hasAmount)%bool then BankStatement
  else if (JS.includes headerText "jan" || JS.includes headerText "jan 2"
           || (JS.includes headerText "total" && includesType types T_total))%bool
  then FinancialStatement
  else
    let hasType := (includesType types T_type || includesType types T_category)%bool in
    let hasName := (includesType types T_name || includesType types T_description)%bool in
    if ((hasType || hasName) && hasAmount)%bool then Simple
    else Unknown.

(** [Math.round((total / n) * 100)] for [total >= 0]; the quotient is taken
    exactly and the half rounds up.  [n = 0] gives [NaN]. *)
Definition roundedAverage (total : Z) (n : nat) : option Z :=
  match n with
  | O => None
  | _ => Some ((200 * total + Z.of_nat n) / (2 * Z.of_nat n))
  end.

(** The [forEach] of [detectColumns]: the three accumulators after the
    headers from [index] on. *)
Fixpoint detectEach (allHeaders : list string) (index : nat) (hs : list string)
  (m : ColumnMapping) (sg : list (nat * list ColumnType)) (totalConfidence : Z)
  : ColumnMapping * list (nat * list ColumnType) * Z :=
  match hs with
  | [] => (m, sg, totalConfidence)
  | header :: rest =>
      let detected := detectColumnType header index allHeaders in
      detectEach allHeaders (S index) rest
        (m ++ [(index, dtype detected)])%list
        (sg ++ [(index, dsuggestions detected)])%list
        (totalConfidence + dconfidence detected)
  end.

Definition detectColumns (headers : list string) : DetectedColumns :=
  let '(m, sg, totalConfidence) := detectEach headers 0 headers [] [] 0 in
  let averageConfidence := roundedAverage totalConfidence (List.length headers) in
  let format := detectFileFormat m headers in
  {| mapping := m;
     confidence := averageConfidence;
     detectedFormat := format;
     suggestions := sg |}.

(** [mapping[index]]. *)
Fixpoint lookup (m : ColumnMapping) (index : nat) : option ColumnType :=
  match m with
  | [] => None
  | (i, t) :: r => if Nat.eqb i index then Some t else lookup r index
  end.

(** *** Rows of named string fields *)

Definition Row := list (string * string).

(** [row[key]]: [None] is [undefined]. *)
Fixpoint get (row : Row) (key : string) : option string :=
  match row with
  | [] => None
  | (k, v) :: r => if String.eqb k key then Some v else get r key
  end.

(** [row[key] = value]: an existing key keeps its place, a new one goes
    last. *)
Fixpoint set (row : Row) (key value : string) : Row :=
  match row with
  | [] => [(key, value)]
  | (k, v) :: r =>
      if String.eqb k key then (k, value) :: r else (k, v) :: set r key value
  end.

(** [rawRow[index] || '']. *)
Definition cell (rawRow : list string) (index : nat) : string :=
  JS.orElseOpt (nth_error rawRow index) "".

(** The callback of the [forEach] in [mapRow]. *)
Definition mapCell (rawRow : list string) (mappedRow : Row)
  (entry : nat * ColumnType) : Row :=
  let '(index, columnType) := entry in
  let value := cell rawRow index in
  match columnType with
  | T_type => set mappedRow "Type" value
  | T_date => set mappedRow "Date" value
  | T_description | T_name =>
      set mappedRow "Name"
        (JS.orElse value (JS.orElseOpt (get mappedRow "Name") ""))
  | T_amount => set mappedRow "Amount" value
  | T_debit => set mappedRow "Debit" value
  | T_credit => set mappedRow "Credit" value
  | T_category => set mappedRow "Category" value
  | T_account => set mappedRow "Account" value
  | T_frequency => set mappedRow "Frequency" value
  | T_balance => set mappedRow "Balance" value
  | T_total => set mappedRow "Total" value
  | T_ignore => mappedRow
  end.

Definition mapRow (rawRow : list string) (m : ColumnMapping)
  (headers : list string) : Row :=
  fold_left (mapCell rawRow) m [].

End ColumnMapper.

(* ================================================================= *)
(** ** The numbers [parseFloat] reads and [String] prints

    A number is kept as an exact decimal [m * 10^e] with a sign.  This is
    what a double holds for every literal of at most 15 significant digits
    inside the double range, so [String(parseFloat(s))] is modelled exactly
    for such cells; a longer literal would be rounded by a double and is
    outside the model. *)

Module JSNumber.

Inductive number :=
| NaN
| Infinity (negative : bool)
| Dec (negative : bool) (m : N) (e : Z).

Definition isNaN (x : number) : bool :=
  match x with
  | NaN => true
  | _ => false
  end.

(** [x > 0]. *)
Definition gt0 (x : number) : bool :=
  match x with
  | NaN => false
  | Infinity negative => negb negative
  | Dec negative m _ => (negb negative && N.ltb 0 m)%bool
  end.

(** [x < 0]. *)
Definition lt0 (x : number) : bool :=
  match x with
  | NaN => false
  | Infinity negative => negative
  | Dec negative m _ => (negative && N.ltb 0 m)%bool
  end.

(** The longest prefix of decimal digits, and what follows it. *)
Fixpoint spanDigits (s : string) : string * string :=
  match s with
  | EmptyString => (EmptyString, EmptyString)
  | String c r =>
      if JS.isDigit c
      then let '(d, rest) := spanDigits r in (String c d, rest)
      else (EmptyString, s)
  end.

Fixpoint digitsValue (acc : N) (s : string) : N :=
  match s with
  | EmptyString => acc
  | String c r => digitsValue (10 * acc + N.of_nat (nat_of_ascii c - 48)) r
  end.

(** The exponent part [e[+-]?digits] when it is well formed, else 0. *)
Definition exponentPart (s : string) : Z :=
  match s with
  | String c r =>
      if (Ascii.eqb c "e" || Ascii.eqb c "E")%bool
      then
        let '(negative, r') :=
          match r with
          | String "-" t => (true, t)
          | String "+" t => (false, t)
          | _ => (false, r)
          end in
        let '(d, _) := spanDigits r' in
        match d with
        | EmptyString => 0
        | _ => let v := Z.of_N (digitsValue 0 d) in if negative then - v else v
        end
      else 0
  | EmptyString => 0
  end.

(** [parseFloat(s)]: leading white space is skipped, the longest prefix that
    is a decimal literal is read, and what follows it is ignored. *)
Definition parseFloat (s : string) : number :=
  let t := JS.trimStart s in
  let '(negative, t1) :=
    match t with
    | String "-" r => (true, r)
    | String "+" r => (false, r)
    | _ => (false, t)
    end in
  if JS.startsWith "Infinity" t1 then Infinity negative
  else
    let '(intDigits, afterInt) := spanDigits t1 in
    let '(fracDigits, afterFrac) :=
      match afterInt with
      | String "." r => spanDigits r
      | _ => (EmptyString, afterInt)
      end in
    match (intDigits ++ fracDigits)%string with
    | EmptyString => NaN
    | allDigits =>
        Dec negative (digitsValue 0 allDigits)
          (exponentPart afterFrac - Z.of_nat (String.length fracDigits))
    end.

Fixpoint zeros (n : nat) : string :=
  match n with
  | O => EmptyString
  | S k => String "0" (zeros k)
  end.

Fixpoint dropZeros (s : string) : string :=
  match s with
  | String "0" r => dropZeros r
  | _ => s
  end.

Definition natString (n : nat) : string :=
  NilEmpty.string_of_uint (Nat.to_uint n).

Fixpoint takeString (n : nat) (s : string) : string :=
  match n, s with
  | S k, String c r => String c (takeString k r)
  | _, _ => EmptyString
  end.

Fixpoint dropString (n : nat) (s : string) : string :=
  match n, s with
  | S k, String _ r => dropString k r
  | _, _ => s
  end.

(** [String(x)], the decimal [Number::toString] of the language. *)
Definition toString (x : number) : string :=
  match x with
  | NaN => "NaN"
  | Infinity negative => if negative then "-Infinity" else "Infinity"
  | Dec negative m e =>
      if N.eqb m 0 then "0"
      else
        let all := NilEmpty.string_of_uint (N.to_uint m) in
        let digits := JS.rev (dropZeros (JS.rev all)) in
        let k := Z.of_nat (String.length digits) in
        let n := k + (e + (Z.of_nat (String.length all) - k)) in
        let body :=
          if ((k <=? n) && (n <=? 21))%bool
          then digits ++ zeros (Z.to_nat (n - k))
          else if ((0 <? n) && (n <=? 21))%bool
          then takeString (Z.to_nat n) digits ++ "." ++ dropString (Z.to_nat n) digits
          else if ((-6 <? n) && (n <=? 0))%bool
          then "0." ++ zeros (Z.to_nat (- n)) ++ digits
          else
            let ex := n - 1 in
            let exText := (if ex <? 0 then "-" else "+") ++ natString (Z.abs_nat ex) in
            if k =? 1 then digits ++ "e" ++ exText
            else takeString 1 digits ++ "." ++ dropString 1 digits ++ "e" ++ exText in
        if negative then "-" ++ body else body
  end.

End JSNumber.

(* ================================================================= *)
(** ** The date patterns of the two validators

    Each pattern is anchored at the start of the string and is a sequence
    of digit runs [\d{lo,hi}] and literal characters.  [matchPieces] gives
    every remainder a match of the pieces can leave, so that [test] is true
    exactly when some way of matching (the regular expression backtracks)
    succeeds. *)

Module Regex.

Inductive piece :=
| Digits (lo hi : nat)
| Lit (c : ascii).

(** The remainders of [s] after a run of between [lo] and [hi] digits. *)
Fixpoint digitRuns (lo hi : nat) (s : string) : list string :=
  ((match lo with O => [s] | S _ => [] end)
   ++ match hi with
      | O => []
      | S hi' =>
          match s with
          | String c r => if JS.isDigit c then digitRuns (Nat.pred lo) hi' r else []
          | EmptyString => []
          end
      end)%list.

Definition matchPiece (p : piece) (s : string) : list string :=
  match p with
  | Digits lo hi => digitRuns lo hi s
  | Lit c =>
      match s with
      | String a r => if Ascii.eqb a c then [r] else []
      | EmptyString => []
      end
  end.

Fixpoint matchPieces (ps : list piece) (s : string) : list string :=
  match ps with
  | [] => [s]
  | p :: rest => flat_map (matchPieces rest) (matchPiece p s)
  end.

(** [pattern.test(s)] for an anchored pattern. *)
Definition test (ps : list piece) (s : string) : bool :=
  match matchPieces ps s with
  | [] => false
  | _ => true
  end.

(** [/^\d{4}-\d{2}-\d{2}/]. *)
Definition isoDate : list piece :=
  [Digits 4 4; Lit "-"; Digits 2 2; Lit "-"; Digits 2 2].

(** [/^\d{1,2}\/\d{1,2}\/\d{2,4}/]. *)
Definition slashDate : list piece :=
  [Digits 1 2; Lit "/"; Digits 1 2; Lit "/"; Digits 2 4].

(** [/^\d{1,2}-\d{1,2}-\d{2,4}/]. *)
Definition dashDate : list piece :=
  [Digits 1 2; Lit "-"; Digits 1 2; Lit "-"; Digits 2 4].

(** [/^(Jan|Feb|Mar|Apr|May|Jun|Jul|Aug|Sep|Oct|Nov|Dec)/i]. *)
Definition startsWithMonth (s : string) : bool :=
  existsb (fun m => JS.startsWith m (JS.toLowerCase s))
    ["jan"; "feb"; "mar"; "apr"; "may"; "jun"; "jul"; "aug"; "sep"; "oct";
     "nov"; "dec"].

(** [patterns.some(pattern => pattern.test(s))] for the four patterns both
    validators list. *)
Definition somePattern (s : string) : bool :=
  (test isoDate s || test slashDate s || test dashDate s || startsWithMonth s)%bool.

End Regex.

(* ================================================================= *)
(** ** columnMapper.ts: the bank-statement validator and the templates *)

Module BankValidation.

Import ColumnMapper.

Inductive InferredType := inferredIncome | inferredExpense.

Record BankValidationResult := {
  valid : bool;
  errors : list string;
  inferredType : option InferredType
}.

Definition isValidDate (dateStr : string) : bool :=
  if negb (JS.truthy dateStr) then false
  else Regex.somePattern (JS.trim dateStr).

(** [errors.push(message)] when [cond] holds. *)
Definition pushIf (cond : bool) (message : string) (errors : list string) : list string :=
  if cond then (errors ++ [message])%list else errors.

Definition validateBankStatementRow (row : Row) : BankValidationResult :=
  let e1 :=
    if negb (JS.truthyOpt (get row "Date"))
    then ["Date is required"]
    else if negb (isValidDate (JS.orElseOpt (get row "Date") ""))
    then ["Date must be in a valid format (YYYY-MM-DD, MM/DD/YYYY, or similar)"]
    else [] in
  let e2 :=
    pushIf (negb (JS.truthyOpt (get row "Name"))
            || String.eqb (JS.trim (JS.orElseOpt (get row "Name") "")) "")%bool
      "Description is required" e1 in
  let '(e3, inferred) :=
    if (JS.truthyOpt (get row "Debit") || JS.truthyOpt (get row "Credit"))%bool
    then
      let debit := JSNumber.parseFloat (JS.orElseOpt (get row "Debit") "0") in
      let credit := JSNumber.parseFloat (JS.orElseOpt (get row "Credit") "0") in
      let e := pushIf (JSNumber.isNaN debit && JSNumber.isNaN credit)%bool
                 "Debit or Credit must be a valid number" e2 in
      let i1 := if JSNumber.gt0 debit then Some inferredExpense else None in
      let i2 := if JSNumber.gt0 credit then Some inferredIncome else i1 in
      (e, i2)
    else if JS.truthyOpt (get row "Amount")
    then
      let amount := JSNumber.parseFloat (JS.orElseOpt (get row "Amount") "") in
      (pushIf (JSNumber.isNaN amount) "Amount must be a valid number" e2, None)
    else ((e2 ++ ["Amount, Debit, or Credit is required"])%list, None) in
  {| valid := match e3 with [] => true | _ => false end;
     errors := e3;
     inferredType := inferred |}.

(** [createMappingTemplate]: an unlisted format gives the empty mapping
    ([templates[format] || {}]). *)
Definition createMappingTemplate (format : string) : ColumnMapping :=
  if String.eqb format "bank-statement"
  then [(0, T_date); (1, T_description); (2, T_debit); (3, T_credit); (4, T_balance)]%nat
  else if String.eqb format "financial-statement"
  then [(0, T_name); (13, T_total)]%nat
  else if String.eqb format "simple"
  then [(0, T_type); (1, T_name); (2, T_amount); (3, T_frequency); (4, T_category)]%nat
  else [].

End BankValidation.

(* ================================================================= *)
(** ** csvParser.ts *)

Module CsvParser.

Import ColumnMapper.

Definition ParsedRow := Row.

Record ParsedCSVData := {
  headers : list string;
  rows : list ParsedRow;
  rawData : list (list string);
  format : FileFormat;
  detectedColumns : option DetectedColumns;
  columnMappingConfidence : option (option Z)
}.

(** A call either returns or throws. *)
Inductive outcome (A : Type) :=
| Returns (a : A)
| Throws (message : string).
Arguments Returns {A} a.
Arguments Throws {A} message.

Definition quoteChar : ascii := ascii_of_nat 34.

(** The [for] loop of [parseCSVLine] over the rest of the line. *)
Fixpoint parseCSVLineLoop (line : string) (result : list string)
  (current : string) (insideQuotes : bool) : list string :=
  match line with
  | EmptyString => (result ++ [JS.trim current])%list
  | String char rest =>
      if Ascii.eqb char quoteChar
      then
        match insideQuotes, rest with
        | true, String nextChar rest' =>
            if Ascii.eqb nextChar quoteChar
            then parseCSVLineLoop rest' result
                   (current ++ String quoteChar EmptyString) insideQuotes
            else parseCSVLineLoop rest result current (negb insideQuotes)
        | _, _ => parseCSVLineLoop rest result current (negb insideQuotes)
        end
      else if (Ascii.eqb char "," && negb insideQuotes)%bool
      then parseCSVLineLoop rest (result ++ [JS.trim current])%list EmptyString insideQuotes
      else parseCSVLineLoop rest result (current ++ String char EmptyString) insideQuotes
  end.

Definition parseCSVLine (line : string) : list string :=
  parseCSVLineLoop line [] EmptyString false.

(** [!rawRow || rawRow.every(cell => !cell)] for a row that exists. *)
Definition isEmptyRow (rawRow : list string) : bool :=
  forallb (fun c => negb (JS.truthy c)) rawRow.

(** [Object.values(mappedRow).some(v => v && v.trim())]. *)
Definition hasMeaningfulData (mappedRow : Row) : bool :=
  existsb (fun v => (JS.truthy v && JS.truthy (JS.trim v))%bool) (map snd mappedRow).

(** The loop of [parseFlexibleCSV] over [csvLines[1..]]. *)
Fixpoint flexibleLoop (dataLines : list (list string)) (hs : list string)
  (dc : DetectedColumns) (rs : list ParsedRow) (raw : list (list string))
  : list ParsedRow * list (list string) :=
  match dataLines with
  | [] => (rs, raw)
  | rawRow :: rest =>
      if isEmptyRow rawRow then flexibleLoop rest hs dc rs raw
      else
        let mappedRow := mapRow rawRow (mapping dc) hs in
        if negb (hasMeaningfulData mappedRow) then flexibleLoop rest hs dc rs raw
        else flexibleLoop rest hs dc (rs ++ [mappedRow])%list (raw ++ [rawRow])%list
  end.

Definition parseFlexibleCSV (csvLines : list (list string)) (hs : list string)
  (dc : DetectedColumns) : ParsedCSVData :=
  let '(rs, raw) := flexibleLoop (skipn 1 csvLines) hs dc [] [hs] in
  let parsedHeaders :=
    match rs with
    | first :: _ => map fst first
    | [] => hs
    end in
  {| headers := parsedHeaders;
     rows := rs;
     rawData := raw;
     format := match detectedFormat dc with
               | BankStatement => BankStatement
               | _ => Simple
               end;
     detectedColumns := Some dc;
     columnMappingConfidence := Some (confidence dc) |}.

(** The body of the loop of [parseBankStatementCSV] after [mapRow]: the
    debit/credit inference, then the defaults. *)
Definition inferDebitCredit (mappedRow : Row) : Row :=
  if (JS.truthyOpt (get mappedRow "Debit") || JS.truthyOpt (get mappedRow "Credit"))%bool
  then
    let debit := JSNumber.parseFloat (JS.orElseOpt (get mappedRow "Debit") "0") in
    let credit := JSNumber.parseFloat (JS.orElseOpt (get mappedRow "Credit") "0") in
    if JSNumber.gt0 debit
    then set (set mappedRow "Type" "Expense") "Amount" (JSNumber.toString debit)
    else if JSNumber.gt0 credit
    then set (set mappedRow "Type" "Income") "Amount" (JSNumber.toString credit)
    else mappedRow
  else mappedRow.

Definition setDefault (mappedRow : Row) (key value : string) : Row :=
  if negb (JS.truthyOpt (get mappedRow key)) then set mappedRow key value
  else mappedRow.

(** "Set default values if missing". *)
Definition bankRow_defaults (mappedRow : Row) : Row :=
  let r1 := setDefault mappedRow "Type" "Expense" in
  let r2 := setDefault r1 "Frequency" "one-time" in
  let r3 := setDefault r2 "Category" "Other" in
  setDefault r3 "Name" "Transaction".

Definition bankRow (mappedRow : Row) : Row :=
  bankRow_defaults (inferDebitCredit mappedRow).

Fixpoint bankLoop (dataLines : list (list string)) (hs : list string)
  (dc : DetectedColumns) (rs : list ParsedRow) (raw : list (list string))
  : list ParsedRow * list (list string) :=
  match dataLines with
  | [] => (rs, raw)
  | rawRow :: rest =>
      if isEmptyRow rawRow then bankLoop rest hs dc rs raw
      else
        let mappedRow := bankRow (mapRow rawRow (mapping dc) hs) in
        bankLoop rest hs dc (rs ++ [mappedRow])%list (raw ++ [rawRow])%list
  end.

Definition parseBankStatementCSV (csvLines : list (list string)) (hs : list string)
  (dc : DetectedColumns) : ParsedCSVData :=
  let '(rs, raw) := bankLoop (skipn 1 csvLines) hs dc [] [hs] in
  {| headers := ["Type"; "Date"; "Name"; "Amount"; "Frequency"; "Category"];
     rows := rs;
     rawData := raw;
     format := BankStatement;
     detectedColumns := Some dc;
     columnMappingConfidence := Some (confidence dc) |}.

Inductive SectionType := income | expense.

(** [/^total\s|^noi|^net operating|^operating income|^operating expense/i]. *)
Definition isSummaryRow (trimmedName : string) : bool :=
  let l := JS.toLowerCase trimmedName in
  ((JS.startsWith "total" l &&
    match JSNumber.dropString 5 l with
    | String c _ => JS.isSpace c
    | EmptyString => false
    end)
   || JS.startsWith "noi" l
   || JS.startsWith "net operating" l
   || JS.startsWith "operating income" l
   || JS.startsWith "operating expense" l)%bool.

(** The character class [[,$()]]. *)
Definition isAmountNoise (c : ascii) : bool :=
  (Ascii.eqb c "," || Ascii.eqb c "$" || Ascii.eqb c "(" || Ascii.eqb c ")")%bool.

Definition cleanAmountOf (rawAmount : string) : string :=
  JS.removeChars isAmountNoise rawAmount.

Definition statementRow (currentType : SectionType) (trimmedName cleanAmount : string)
  : ParsedRow :=
  [ ("Type", match currentType with income => "Income" | expense => "Expense" end);
    ("Name", trimmedName);
    ("Amount", cleanAmount);
    ("Frequency", "monthly");
    ("Category", "Other");
    ("Status", "Active") ].

(** The loop of [parseFinancialStatementCSV] over [lines[1..]]. *)
Fixpoint statementLoop (totalColumnIndex : Z) (ls : list string)
  (currentType : option SectionType) (rs : list ParsedRow)
  (raw : list (list string)) : list ParsedRow * list (list string) :=
  match ls with
  | [] => (rs, raw)
  | l :: rest =>
      let line := JS.trim l in
      if negb (JS.truthy line) then statementLoop totalColumnIndex rest currentType rs raw
      else
        let values := parseCSVLine line in
        let accountName := JS.orElseOpt (option_map JS.trim (nth_error values 0)) "" in
        if negb (JS.truthy accountName)
        then statementLoop totalColumnIndex rest currentType rs raw
        else
          let trimmedName := JS.trim accountName in
          if String.eqb (JS.toLowerCase trimmedName) "income"
          then statementLoop totalColumnIndex rest (Some income) rs raw
          else if String.eqb (JS.toLowerCase trimmedName) "expense"
          then statementLoop totalColumnIndex rest (Some expense) rs raw
          else if isSummaryRow trimmedName
          then statementLoop totalColumnIndex rest currentType rs raw
          else
            match currentType with
            | None => statementLoop totalColumnIndex rest currentType rs raw
            | Some ty =>
                let rawAmount := JS.orElseOpt (JS.at_ values totalColumnIndex) "" in
                let cleanAmount := cleanAmountOf rawAmount in
                if (negb (JS.truthy cleanAmount)
                    || JSNumber.isNaN (JSNumber.parseFloat cleanAmount))%bool
                then statementLoop totalColumnIndex rest currentType rs raw
                else statementLoop totalColumnIndex rest currentType
                       (rs ++ [statementRow ty trimmedName cleanAmount])%list
                       (raw ++ [values])%list
            end
  end.

(** [lines[0]] of an empty array is [undefined], on which [parseCSVLine]
    throws. *)
Definition parseFinancialStatementCSV (lines : list string) : outcome ParsedCSVData :=
  match lines with
  | [] => Throws "TypeError"
  | line0 :: _ =>
      let hs := map JS.trim (parseCSVLine line0) in
      let totalColumnIndex :=
        JS.findIndex (fun h => String.eqb (JS.toLowerCase h) "total") hs in
      let '(rs, raw) := statementLoop totalColumnIndex (skipn 1 lines) None [] [hs] in
      Returns
        {| headers := ["Type"; "Name"; "Amount"; "Frequency"; "Category"; "Status"];
           rows := rs;
           rawData := raw;
           format := FinancialStatement;
           detectedColumns := None;
           columnMappingConfidence := None |}
  end.

Definition newline : ascii := ascii_of_nat 10.

Definition parseCSV (content : string) : outcome ParsedCSVData :=
  let lines := JS.split newline (JS.trim content) in
  match lines with
  | [] => Throws "Empty CSV file"
  | _ =>
      let csvLines := map parseCSVLine lines in
      match csvLines with
      | [] => Throws "No valid data rows found"
      | first :: _ =>
          let hs := map JS.trim first in
          let dc := detectColumns hs in
          match detectedFormat dc with
          | FinancialStatement => parseFinancialStatementCSV lines
          | BankStatement => Returns (parseBankStatementCSV csvLines hs dc)
          | _ => Returns (parseFlexibleCSV csvLines hs dc)
          end
      end
  end.

Inductive CSVType := IncomeExpense | AssetLiability | UnknownType.

(** The character class [[_\-\s]] of [detectCSVType]. *)
Definition isHeaderNoise (c : ascii) : bool :=
  (Ascii.eqb c "_" || Ascii.eqb c "-" || JS.isSpace c)%bool.

Definition detectCSVType (hs : list string) : CSVType :=
  let normalizedHeaders :=
    map (fun h => JS.removeChars isHeaderNoise (JS.toLowerCase h)) hs in
  let hasNameCol :=
    existsb (fun h => (JS.includes h "type" || JS.includes h "name"
                       || JS.includes h "description")%bool) normalizedHeaders in
  let hasAmountCol :=
    existsb (fun h => (JS.includes h "amount" || JS.includes h "value"
                       || JS.includes h "total")%bool) normalizedHeaders in
  let isIncomeExpense :=
    if (hasNameCol && hasAmountCol)%bool
    then
      let hasFrequency := existsb (fun h => JS.includes h "frequency") normalizedHeaders in
      let hasDebitCredit :=
        existsb (fun h => (JS.includes h "debit" || JS.includes h "credit")%bool)
          normalizedHeaders in
      let hasDate := existsb (fun h => JS.includes h "date") normalizedHeaders in
      (hasFrequency || hasDebitCredit || hasDate)%bool
    else false in
  if isIncomeExpense then IncomeExpense
  else
    let hasAssetLiabilityMarkers :=
      existsb (fun h => (JS.includes h "balance" || JS.includes h "currentvalue"
                         || JS.includes h "valuationdate"
                         || JS.includes h "interestrate"
                         || JS.includes h "monthlypayment")%bool) normalizedHeaders in
    if hasAssetLiabilityMarkers then AssetLiability
    else if hasAmountCol then IncomeExpense
    else UnknownType.

Definition isValidDateString (dateStr : string) : bool :=
  if negb (JS.truthy dateStr) then true
  else Regex.somePattern (JS.trim dateStr).

Record ValidationResult := {
  valid : bool;
  errors : list string
}.

(** A double quote, for the messages that quote a value. *)
Definition dq : string := String quoteChar EmptyString.

(** [`(got: "${value}")`]: an [undefined] value prints as [undefined]. *)
Definition got (value : option string) : string :=
  "(got: " ++ dq ++ match value with Some v => v | None => "undefined" end ++ dq ++ ")".

Definition typeErrors (row : ParsedRow) : list string :=
  let typeValue :=
    JS.orElseOpt (option_map (fun t => JS.toLowerCase (JS.trim t)) (get row "Type")) "" in
  if negb (JS.truthy typeValue)
  then ["Type is required (must be " ++ dq ++ "Income" ++ dq ++ " or "
          ++ dq ++ "Expense" ++ dq ++ ")"]
  else if negb (existsb (fun t => JS.includes typeValue t) ["income"; "expense"])
  then
    if (JS.truthyOpt (get row "Debit")
        && JSNumber.gt0 (JSNumber.parseFloat (JS.orElseOpt (get row "Debit") "")))%bool
    then []
    else if (JS.truthyOpt (get row "Credit")
             && JSNumber.gt0 (JSNumber.parseFloat (JS.orElseOpt (get row "Credit") "")))%bool
    then []
    else ["Type must be " ++ dq ++ "Income" ++ dq ++ " or " ++ dq ++ "Expense" ++ dq
            ++ " " ++ got (get row "Type")]
  else [].

Definition nameErrors (row : ParsedRow) : list string :=
  if (negb (JS.truthyOpt (get row "Name"))
      || String.eqb (JS.trim (JS.orElseOpt (get row "Name") "")) "")%bool
  then ["Description/Name is required"]
  else [].

Definition amountErrors (row : ParsedRow) : list string :=
  if JS.truthyOpt (get row "Amount")
  then
    let cleaned := cleanAmountOf (JS.orElseOpt (get row "Amount") "") in
    let amountValue := JSNumber.parseFloat cleaned in
    if JSNumber.isNaN amountValue
    then ["Amount must be a valid number " ++ got (get row "Amount")]
    else if JSNumber.lt0 amountValue then ["Amount must be positive"]
    else []
  else if (JS.truthyOpt (get row "Debit") || JS.truthyOpt (get row "Credit"))%bool
  then
    let debit := JSNumber.parseFloat (JS.orElseOpt (get row "Debit") "0") in
    let credit := JSNumber.parseFloat (JS.orElseOpt (get row "Credit") "0") in
    if (JSNumber.isNaN debit && JSNumber.isNaN credit)%bool
    then ["Debit or Credit amount must be a valid number"]
    else []
  else ["Amount (or Debit/Credit) is required"].

Definition dateErrors (row : ParsedRow) : list string :=
  if (JS.truthyOpt (get row "Date")
      && negb (isValidDateString (JS.orElseOpt (get row "Date") "")))%bool
  then ["Date format not recognized " ++ got (get row "Date")]
  else [].

(** The four checks push their messages in this order; the frequency check
    pushes nothing. *)
Definition validateIncomeExpenseRow (row : ParsedRow) : ValidationResult :=
  let errs := (typeErrors row ++ nameErrors row ++ amountErrors row ++ dateErrors row)%list in
  {| valid := match errs with [] => true | _ => false end;
     errors := errs |}.

End CsvParser.

(* ================================================================= *)
(** ** export.ts: the text [exportAsCSV] builds

    The two arrays are what the store returns; the function is the text it
    builds from them. *)

Module ExportService.

Inductive Frequency :=
| daily | weekly | biWeekly | semiMonthly | monthly | quarterly | annually | oneTime.

Definition frequencyText (f : Frequency) : string :=
  match f with
  | daily => "daily"
  | weekly => "weekly"
  | biWeekly => "bi-weekly"
  | semiMonthly => "semi-monthly"
  | monthly => "monthly"
  | quarterly => "quarterly"
  | annually => "annually"
  | oneTime => "one-time"
  end.

Record Income := {
  i_id : string;
  i_name : string;
  i_amount : JSNumber.number;
  i_frequency : Frequency;
  i_category : string;
  i_startDate : string;
  i_endDate : option string;
  i_isActive : bool;
  i_notes : option string;
  i_createdAt : string;
  i_updatedAt : string
}.

Record Expense := {
  e_id : string;
  e_name : string;
  e_amount : JSNumber.number;
  e_frequency : Frequency;
  e_category : string;
  e_dueDate : option string;
  e_isActive : bool;
  e_notes : option string;
  e_createdAt : string;
  e_updatedAt : string
}.

(** [`"${s}"`]. *)
Definition quoted (s : string) : string := CsvParser.dq ++ s ++ CsvParser.dq.

Definition statusText (isActive : bool) : string :=
  if isActive then "Active" else "Inactive".

Definition incomeCells (income : Income) : list string :=
  [ "Income";
    quoted (i_name income);
    JSNumber.toString (i_amount income);
    frequencyText (i_frequency income);
    quoted (i_category income);
    statusText (i_isActive income);
    i_startDate income;
    JS.orElseOpt (i_endDate income) "";
    quoted (JS.orElseOpt (i_notes income) "") ].

Definition expenseCells (expense : Expense) : list string :=
  [ "Expense";
    quoted (e_name expense);
    JSNumber.toString (e_amount expense);
    frequencyText (e_frequency expense);
    quoted (e_category expense);
    statusText (e_isActive expense);
    JS.orElseOpt (e_dueDate expense) "";
    "";
    quoted (JS.orElseOpt (e_notes expense) "") ].

Definition incomeRow (income : Income) : string := JS.join "," (incomeCells income).

Definition expenseRow (expense : Expense) : string := JS.join "," (expenseCells expense).

Definition csvHeader : string :=
  "Type,Name,Amount,Frequency,Category,Status,Start Date,End Date,Notes".

Definition nl : string := String CsvParser.newline EmptyString.

Definition exportAsCSV (incomes : list Income) (expenses : list Expense) : string :=
  let csv0 := csvHeader ++ nl in
  let csv1 := fold_left (fun csv income => csv ++ incomeRow income ++ nl) incomes csv0 in
  fold_left (fun csv expense => csv ++ expenseRow expense ++ nl) expenses csv1.

End ExportService.

(* ================================================================= *)
(** ** Reference readings of the specification

    Definitions that follow the words of the specification rather than the
    code; the code is compared against them. *)

Module Spec.

Import ColumnMapper.

(** "Take the max alias score per type". *)
Definition maxAliasScore (normalized : string) (aliases : list string) : Z :=
  fold_right Z.max 0 (map (aliasScore normalized) aliases).

(** The cells of the columns typed [description] or [name], in column
    order. *)
Definition isNameType (t : ColumnType) : bool :=
  match t with
  | T_description | T_name => true
  | _ => false
  end.

Definition nameCells (rawRow : list string) (m : ColumnMapping) : list string :=
  map (fun e => cell rawRow (fst e)) (filter (fun e => isNameType (snd e)) m).

(** "first non-empty wins". *)
Definition firstNonEmpty (cells : list string) : string :=
  hd "" (filter JS.truthy cells).

Definition monthNames : list string :=
  [ "jan"; "feb"; "mar"; "apr"; "may"; "jun"; "jul"; "aug"; "sep"; "oct";
    "nov"; "dec"; "january"; "february"; "march"; "april"; "june"; "july";
    "august"; "september"; "october"; "november"; "december" ].

(** "three-letter and full month names (case-insensitive), optionally
    followed by a 4-digit year". *)
Definition isMonthToken (header : string) : bool :=
  let h := JS.toLowerCase (JS.trim header) in
  existsb
    (fun mn =>
       (String.eqb h mn ||
        (JS.startsWith (mn ++ " ") h &&
         let y := JSNumber.dropString (S (String.length mn)) h in
         (Nat.eqb (String.length y) 4 &&
          String.eqb (fst (JSNumber.spanDigits y)) y)))%bool)
    monthNames.

(** "a month value of exactly zero (or unparseable/empty) is skipped". *)
Definition monthValueCounts (cellValue : string) : bool :=
  let x := JSNumber.parseFloat (CsvParser.cleanAmountOf cellValue) in
  (JSNumber.gt0 x || JSNumber.lt0 x)%bool.

(** "the count of columns whose parsed value is non-zero". *)
Definition nonZeroMonths (headers values : list string) : nat :=
  List.length
    (filter (fun hv => (isMonthToken (fst hv) && monthValueCounts (snd hv))%bool)
       (combine headers values)).

End Spec.

(* ================================================================= *)
(** ** Definitions the statements are written with *)

Module View.

Import ColumnMapper CsvParser.

(** The bank-statement test of [detectFileFormat]. *)
Definition bankCriteria (m : ColumnMapping) : bool :=
  let types := map snd m in
  (includesType types T_date && includesType types T_description
   && (includesType types T_amount || includesType types T_debit
       || includesType types T_credit))%bool.

(** The simple-format test of [detectFileFormat]. *)
Definition simpleCriteria (m : ColumnMapping) : bool :=
  let types := map snd m in
  ((includesType types T_type || includesType types T_category
    || (includesType types T_name || includesType types T_description))
   && (includesType types T_amount || includesType types T_debit
       || includesType types T_credit))%bool.

(** The entries a per-column detector [detect] yields for the headers
    [hs], numbered from [index]. *)
Fixpoint entriesOf (detect : string -> nat -> ColumnType) (index : nat)
  (hs : list string) : ColumnMapping :=
  match hs with
  | [] => []
  | h :: r => (index, detect h index) :: entriesOf detect (S index) r
  end.

(** The sum of the per-column confidences [detectColumns] accumulates. *)
Fixpoint confidenceFrom (allHeaders : list string) (index : nat) (hs : list string) : Z :=
  match hs with
  | [] => 0
  | h :: r =>
      dconfidence (detectColumnType h index allHeaders)
      + confidenceFrom allHeaders (S index) r
  end.

(** The last non-empty string of [cells], or [init] when there is none. *)
Definition lastNonEmptyFrom (init : string) (cells : list string) : string :=
  last (filter JS.truthy cells) init.

Definition lastNonEmpty (cells : list string) : string :=
  lastNonEmptyFrom "" cells.

(** [parseFloat(mappedRow['Debit'] || '0')] and its credit twin. *)
Definition debitOf (mappedRow : Row) : JSNumber.number :=
  JSNumber.parseFloat (JS.orElseOpt (get mappedRow "Debit") "0").

Definition creditOf (mappedRow : Row) : JSNumber.number :=
  JSNumber.parseFloat (JS.orElseOpt (get mappedRow "Credit") "0").

(** The rows a call returned; none when it threw. *)
Definition rowsOf (o : outcome ParsedCSVData) : list ParsedRow :=
  match o with
  | Returns d => rows d
  | Throws _ => []
  end.

(** What the loop of [parseFinancialStatementCSV] takes a line for. *)
Inductive lineKind :=
| BlankLine
| SectionMarker (s : SectionType)
| SummaryLine
| LineItem (values : list string) (trimmedName : string).

Definition classifyLine (l : string) : lineKind :=
  let line := JS.trim l in
  if negb (JS.truthy line) then BlankLine
  else
    let values := parseCSVLine line in
    let accountName := JS.orElseOpt (option_map JS.trim (nth_error values 0)) "" in
    if negb (JS.truthy accountName) then BlankLine
    else
      let trimmedName := JS.trim accountName in
      if String.eqb (JS.toLowerCase trimmedName) "income" then SectionMarker income
      else if String.eqb (JS.toLowerCase trimmedName) "expense" then SectionMarker expense
      else if isSummaryRow trimmedName then SummaryLine
      else LineItem values trimmedName.

(** [values[totalColumnIndex] || '']. *)
Definition totalCell (totalColumnIndex : Z) (values : list string) : string :=
  JS.orElseOpt (JS.at_ values totalColumnIndex) "".

(** The cleaned Total cell is not empty and [parseFloat] reads a number
    from it. *)
Definition totalIsNumber (totalColumnIndex : Z) (values : list string) : bool :=
  let cleanAmount := cleanAmountOf (totalCell totalColumnIndex values) in
  (JS.truthy cleanAmount
   && negb (JSNumber.isNaN (JSNumber.parseFloat cleanAmount)))%bool.

(** The rows one line item contributes. *)
Definition itemRows (totalColumnIndex : Z) (ty : SectionType)
  (values : list string) (trimmedName : string) : list ParsedRow :=
  if totalIsNumber totalColumnIndex values
  then [statementRow ty trimmedName (cleanAmountOf (totalCell totalColumnIndex values))]
  else [].

(** The rows of a statement, line by line, under the section in force. *)
Fixpoint statementRows (totalColumnIndex : Z) (ls : list string)
  (currentType : option SectionType) : list ParsedRow :=
  match ls with
  | [] => []
  | l :: rest =>
      match classifyLine l with
      | SectionMarker s => statementRows totalColumnIndex rest (Some s)
      | LineItem values trimmedName =>
          match currentType with
          | Some ty =>
              (itemRows totalColumnIndex ty values trimmedName
               ++ statementRows totalColumnIndex rest currentType)%list
          | None => statementRows totalColumnIndex rest currentType
          end
      | _ => statementRows totalColumnIndex rest currentType
      end
  end.

(** The index of the Total column of a header line. *)
Definition totalColumnIndexOf (headerLine : string) : Z :=
  JS.findIndex (fun h => String.eqb (JS.toLowerCase h) "total")
    (map JS.trim (parseCSVLine headerLine)).

(** [trimEnd] by recursion on the string: a character is dropped when it
    is white space and nothing but white space follows it. *)
Fixpoint trimEndRec (s : string) : string :=
  match s with
  | EmptyString => EmptyString
  | String c r =>
      let t := trimEndRec r in
      if (JS.isSpace c && String.eqb t "")%bool then EmptyString else String c t
  end.

(** No character of [s] satisfies [cls]. *)
Fixpoint noneOf (cls : ascii -> bool) (s : string) : bool :=
  match s with
  | EmptyString => true
  | String c r => (negb (cls c) && noneOf cls r)%bool
  end.

Definition isQuote (c : ascii) : bool := Ascii.eqb c quoteChar.

Definition isComma (c : ascii) : bool := Ascii.eqb c ",".

Definition isQuoteOrComma (c : ascii) : bool := (isQuote c || isComma c)%bool.

Definition isNewline (c : ascii) : bool := Ascii.eqb c newline.

(** [s] does not begin with white space. *)
Definition noLeadingSpace (s : string) : bool :=
  match s with
  | EmptyString => true
  | String c _ => negb (JS.isSpace c)
  end.

(** The data rows [parseFlexibleCSV] keeps: not empty, and with some
    non-blank field once mapped. *)
Definition keptByFlexible (hs : list string) (dc : DetectedColumns)
  (rawRow : list string) : bool :=
  (negb (isEmptyRow rawRow)
   && hasMeaningfulData (mapRow rawRow (mapping dc) hs))%bool.

(** The first cell of a statement line, as the loop of
    [parseFinancialStatementCSV] reads it. *)
Definition accountNameOf (l : string) : string :=
  JS.trim (JS.orElseOpt (option_map JS.trim (nth_error (parseCSVLine (JS.trim l)) 0)) "").

(** The line is a section header: its first cell is "income" or "expense",
    whatever the case. *)
Definition isSectionMarker (l : string) : bool :=
  (String.eqb (JS.toLowerCase (accountNameOf l)) "income"
   || String.eqb (JS.toLowerCase (accountNameOf l)) "expense")%bool.

(** The field a column type writes with the plain assignment
    [mappedRow[field] = value]. *)
Definition plainField (t : ColumnType) : option string :=
  match t with
  | T_type => Some "Type"
  | T_date => Some "Date"
  | T_amount => Some "Amount"
  | T_debit => Some "Debit"
  | T_credit => Some "Credit"
  | T_category => Some "Category"
  | T_account => Some "Account"
  | T_frequency => Some "Frequency"
  | T_balance => Some "Balance"
  | T_total => Some "Total"
  | T_description | T_name | T_ignore => None
  end.

(** The cells of the columns typed [t], in column order. *)
Definition cellsTyped (t : ColumnType) (rawRow : list string) (m : ColumnMapping)
  : list string :=
  map (fun e => cell rawRow (fst e)) (filter (fun e => ColumnType_eqb t (snd e)) m).

(** [s] does not begin with a double quote. *)
Definition noLeadingQuote (s : string) : bool :=
  match s with
  | EmptyString => true
  | String c _ => negb (isQuote c)
  end.

(** A cell of an exported line: written as it is, or between double
    quotes. *)
Inductive csvField :=
| Plain (s : string)
| Quoted (s : string).

Definition fieldText (f : csvField) : string :=
  match f with
  | Plain s => s
  | Quoted s => ExportService.quoted s
  end.

Definition fieldValue (f : csvField) : string :=
  match f with
  | Plain s => s
  | Quoted s => s
  end.

(** A plain cell holds neither a comma nor a double quote; a quoted one
    holds no double quote. *)
Definition fieldOk (f : csvField) : bool :=
  match f with
  | Plain s => noneOf isQuoteOrComma s
  | Quoted s => noneOf isQuote s
  end.

(** The cells of an exported income line, before they are written. *)
Definition incomeFields (income : ExportService.Income) : list csvField :=
  [ Plain "Income";
    Quoted (ExportService.i_name income);
    Plain (JSNumber.toString (ExportService.i_amount income));
    Plain (ExportService.frequencyText (ExportService.i_frequency income));
    Quoted (ExportService.i_category income);
    Plain (ExportService.statusText (ExportService.i_isActive income));
    Plain (ExportService.i_startDate income);
    Plain (JS.orElseOpt (ExportService.i_endDate income) "");
    Quoted (JS.orElseOpt (ExportService.i_notes income) "") ].

Definition expenseFields (expense : ExportService.Expense) : list csvField :=
  [ Plain "Expense";
    Quoted (ExportService.e_name expense);
    Plain (JSNumber.toString (ExportService.e_amount expense));
    Plain (ExportService.frequencyText (ExportService.e_frequency expense));
    Quoted (ExportService.e_category expense);
    Plain (ExportService.statusText (ExportService.e_isActive expense));
    Plain (JS.orElseOpt (ExportService.e_dueDate expense) "");
    Plain "";
    Quoted (JS.orElseOpt (ExportService.e_notes expense) "") ].

(** The text fields of a record can be written to a line and read back:
    the quoted ones hold no double quote, the dates neither a double quote
    nor a comma. *)
Definition incomeExportable (income : ExportService.Income) : bool :=
  (noneOf isQuote (ExportService.i_name income)
   && noneOf isQuote (ExportService.i_category income)
   && noneOf isQuote (JS.orElseOpt (ExportService.i_notes income) "")
   && noneOf isQuoteOrComma (ExportService.i_startDate income)
   && noneOf isQuoteOrComma (JS.orElseOpt (ExportService.i_endDate income) ""))%bool.

Definition expenseExportable (expense : ExportService.Expense) : bool :=
  (noneOf isQuote (ExportService.e_name expense)
   && noneOf isQuote (ExportService.e_category expense)
   && noneOf isQuote (JS.orElseOpt (ExportService.e_notes expense) "")
   && noneOf isQuoteOrComma (JS.orElseOpt (ExportService.e_dueDate expense) ""))%bool.

(** The header cells of an exported file, as [parseCSV] reads them. *)
Definition exportHeaders : list string :=
  map JS.trim (parseCSVLine ExportService.csvHeader).

(** The row the bank-statement extractor builds from an exported line,
    under the columns detected for the exported header. *)
Definition reimportedLine (line : string) : ParsedRow :=
  bankRow (mapRow (parseCSVLine line) (mapping (detectColumns exportHeaders))
             exportHeaders).

(** The lines [exportAsCSV] writes after the header, in order. *)
Definition exportedLines (incomes : list ExportService.Income)
  (expenses : list ExportService.Expense) : list string :=
  (map ExportService.incomeRow incomes ++ map ExportService.expenseRow expenses)%list.

(** Every line followed by a newline. *)
Fixpoint withNewlines (ls : list string) : string :=
  match ls with
  | [] => EmptyString
  | l :: r => l ++ ExportService.nl ++ withNewlines r
  end.

(** The text fields of a record hold no newline. *)
Definition incomeOnOneLine (income : ExportService.Income) : bool :=
  (noneOf isNewline (ExportService.i_name income)
   && noneOf isNewline (ExportService.i_category income)
   && noneOf isNewline (JS.orElseOpt (ExportService.i_notes income) "")
   && noneOf isNewline (ExportService.i_startDate income)
   && noneOf isNewline (JS.orElseOpt (ExportService.i_endDate income) ""))%bool.

Definition expenseOnOneLine (expense : ExportService.Expense) : bool :=
  (noneOf isNewline (ExportService.e_name expense)
   && noneOf isNewline (ExportService.e_category expense)
   && noneOf isNewline (JS.orElseOpt (ExportService.e_notes expense) "")
   && noneOf isNewline (JS.orElseOpt (ExportService.e_dueDate expense) ""))%bool.

(** Trimming the end of [s] leaves it whole and it is not empty: [s] ends
    with a character that is not white space. *)
Definition keepsEnd (s : string) : Prop :=
  trimEndRec s = s /\ s <> EmptyString.

(** An ASCII capital letter. *)
Definition isUpper (c : ascii) : bool :=
  let n := nat_of_ascii c in (Nat.leb 65 n && Nat.leb n 90)%bool.

(** Every separator character of [s] is a single space standing alone;
    [afterSeparator] tells whether a separator stands just before [s]. *)
Fixpoint tidy (afterSeparator : bool) (s : string) : bool :=
  match s with
  | EmptyString => true
  | String c r =>
      if isSeparator c
      then (Ascii.eqb c " " && negb afterSeparator && tidy true r)%bool
      else tidy false r
  end.

End View.

Import ColumnMapper CsvParser View.

(* ================================================================= *)
(** ** Facts about rows *)

Lemma get_set_same (row : Row) (key value : string) :
  get (set row key value) key = Some value.
Proof.
  induction row as [|[k v] r IH]; simpl.
  - now rewrite String.eqb_refl.
  - destruct (String.eqb k key) eqn:E; simpl; rewrite E; auto.
Qed.

Lemma get_set_other (row : Row) (key key' value : string) :
  key <> key' -> get (set row key value) key' = get row key'.
Proof.
  intros Hne.
  induction row as [|[k v] r IH]; simpl.
  - destruct (String.eqb key key') eqn:E; auto.
    apply String.eqb_eq in E. contradiction.
  - destruct (String.eqb k key) eqn:E; simpl.
    + apply String.eqb_eq in E. subst k.
      destruct (String.eqb key key') eqn:E'; auto.
      apply String.eqb_eq in E'. contradiction.
    + destruct (String.eqb k key'); auto.
Qed.

Lemma truthy_orElse (a b : string) :
  JS.truthy a = true -> JS.orElse a b = a.
Proof. unfold JS.orElse. now intros ->. Qed.

Lemma falsy_is_empty (a : string) : JS.truthy a = false -> a = "".
Proof.
  unfold JS.truthy. intros H. apply negb_false_iff in H.
  now apply String.eqb_eq in H.
Qed.

Ltac string_neq := let H := fresh in intro H; discriminate H.

Create Rewrite HintDb row.
#[local] Hint Rewrite get_set_same : row.
#[local] Hint Rewrite get_set_other using string_neq : row.

(* ================================================================= *)
(** ** Format classification *)

(** C8. A mapping that meets the bank-statement criteria (a date column, a
    description column and an amount, debit or credit column) and also the
    simple criteria (as the code tests them; the stricter wording of the
    specification implies them) is classified [bank-statement], whatever
    the headers: the bank-statement rule is tested first. *)
Theorem detectFileFormat_bank_precedence (m : ColumnMapping) (headers : list string) :
  bankCriteria m = true ->
  simpleCriteria m = true ->
  detectFileFormat m headers = BankStatement.
Proof.
  unfold bankCriteria, detectFileFormat. cbv zeta.
  intros Hbank _. now rewrite Hbank.
Qed.

Lemma detectFileFormat_bank_precedence_witness :
  let m := [(0%nat, T_type); (1%nat, T_date); (2%nat, T_description); (3%nat, T_amount)] in
  let headers := ["Type"; "Date"; "Description"; "Amount"] in
  bankCriteria m = true /\ simpleCriteria m = true /\
  detectFileFormat m headers = BankStatement.
Proof.
  cbv zeta. split; [reflexivity|]. split; [reflexivity|].
  apply detectFileFormat_bank_precedence; reflexivity.
Defined.

(* ================================================================= *)
(** ** Short rows *)

Lemma cell_past_end (rawRow : list string) (index : nat) :
  (List.length rawRow <= index)%nat -> cell rawRow index = "".
Proof.
  intros H. unfold cell.
  now rewrite (proj2 (nth_error_None rawRow index) H).
Qed.

Lemma cell_padded (rawRow : list string) (k index : nat) :
  cell (rawRow ++ repeat "" k)%list index = cell rawRow index.
Proof.
  unfold cell.
  destruct (Nat.lt_ge_cases index (List.length rawRow)) as [Hlt|Hge].
  - now rewrite nth_error_app1.
  - rewrite (proj2 (nth_error_None rawRow index) Hge).
    rewrite nth_error_app2 by exact Hge.
    destruct (nth_error (repeat "" k) (index - List.length rawRow)) as [c|] eqn:E;
      [|reflexivity].
    apply nth_error_In, repeat_spec in E. now subst c.
Qed.

Lemma mapCell_padded (rawRow : list string) (k : nat) (acc : Row)
  (entry : nat * ColumnType) :
  mapCell (rawRow ++ repeat "" k)%list acc entry = mapCell rawRow acc entry.
Proof.
  destruct entry as [index t]. unfold mapCell. now rewrite cell_padded.
Qed.

(** C9. For a data row shorter than the header row, every column index past
    the end of the row reads as the empty string, and [mapRow] (a total
    function) returns the row it returns for the same cells padded with
    empty strings up to the header length. *)
Theorem mapRow_short_row (rawRow : list string) (m : ColumnMapping)
  (headers : list string) :
  (List.length rawRow < List.length headers)%nat ->
  (forall index, (List.length rawRow <= index)%nat -> cell rawRow index = "") /\
  (exists mappedRow, mapRow rawRow m headers = mappedRow) /\
  mapRow rawRow m headers =
  mapRow (rawRow ++ repeat "" (List.length headers - List.length rawRow))%list m headers.
Proof.
  intros _. split; [apply cell_past_end|]. split; [eexists; reflexivity|].
  unfold mapRow. generalize (@nil (string * string)) as acc.
  induction m as [|entry m IH]; intros acc; simpl; [reflexivity|].
  now rewrite mapCell_padded, IH.
Qed.

Lemma mapRow_short_row_witness :
  let rawRow := ["2025-11-15"] in
  let m := [(0%nat, T_date); (1%nat, T_description); (2%nat, T_amount)] in
  let headers := ["Date"; "Description"; "Amount"] in
  mapRow rawRow m headers = [("Date", "2025-11-15"); ("Name", ""); ("Amount", "")] /\
  cell rawRow 2 = "".
Proof.
  cbv zeta. split; [reflexivity|].
  apply (mapRow_short_row ["2025-11-15"]
           [(0%nat, T_date); (1%nat, T_description); (2%nat, T_amount)]
           ["Date"; "Description"; "Amount"]); simpl; lia.
Defined.

(* ================================================================= *)
(** ** Column detection *)

Lemma ColumnType_eqb_eq (a b : ColumnType) : ColumnType_eqb a b = true -> a = b.
Proof. destruct a, b; simpl; intros H; try discriminate H; reflexivity. Qed.

Section Entries.

Variable detect : string -> nat -> ColumnType.

Lemma lookup_entriesOf :
  forall hs index k h,
    nth_error hs k = Some h ->
    lookup (entriesOf detect index hs) (index + k) = Some (detect h (index + k)).
Proof.
  induction hs as [|h0 r IH]; intros index k h Hk.
  - destruct k; discriminate.
  - destruct k as [|k]; cbn [entriesOf lookup nth_error] in *.
    + injection Hk as ->. rewrite Nat.add_0_r, Nat.eqb_refl. reflexivity.
    + destruct (Nat.eqb_spec index (index + S k)); [lia|].
      replace (index + S k)%nat with (S index + k)%nat by lia.
      now apply IH.
Qed.

Lemma includesType_entriesOf (t : ColumnType) :
  forall hs index,
    includesType (map snd (entriesOf detect index hs)) t = true ->
    exists k h, nth_error hs k = Some h /\ detect h (index + k) = t.
Proof.
  induction hs as [|h0 r IH]; intros index H; [discriminate H|].
  cbn [entriesOf map snd] in H. unfold includesType in H.
  cbn [existsb] in H. apply orb_true_iff in H.
  destruct H as [H|H].
  - exists 0%nat, h0. split; [reflexivity|].
    rewrite Nat.add_0_r. symmetry. now apply ColumnType_eqb_eq.
  - destruct (IH (S index) H) as (k & h & Hk & Ht).
    exists (S k), h. split; [exact Hk|].
    now replace (index + S k)%nat with (S index + k)%nat by lia.
Qed.

End Entries.

Lemma detectEach_entries (allHeaders : list string) :
  forall hs index m sg total,
    fst (fst (detectEach allHeaders index hs m sg total))
    = (m ++ entriesOf (fun h i => dtype (detectColumnType h i allHeaders)) index hs)%list.
Proof.
  induction hs as [|h r IH]; intros index m sg total;
    cbn [detectEach entriesOf]; cbv beta zeta.
  - cbn [fst]. now rewrite app_nil_r.
  - rewrite IH, <- app_assoc. reflexivity.
Qed.

Lemma detectEach_total (allHeaders : list string) :
  forall hs index m sg total,
    snd (detectEach allHeaders index hs m sg total)
    = total + confidenceFrom allHeaders index hs.
Proof.
  induction hs as [|h r IH]; intros index m sg total;
    cbn [detectEach confidenceFrom]; cbv beta zeta.
  - cbn [snd]. lia.
  - rewrite IH. lia.
Qed.

Lemma detectColumns_mapping (headers : list string) :
  mapping (detectColumns headers) = entriesOf (fun h i => dtype (detectColumnType h i headers)) 0 headers.
Proof.
  unfold detectColumns.
  pose proof (detectEach_entries headers headers 0 [] [] 0) as H.
  destruct (detectEach headers 0 headers [] [] 0) as [[m sg] total].
  exact H.
Qed.

Lemma detectColumns_confidence (headers : list string) :
  confidence (detectColumns headers)
  = roundedAverage (confidenceFrom headers 0 headers) (List.length headers).
Proof.
  unfold detectColumns.
  pose proof (detectEach_total headers headers 0 [] [] 0) as H.
  destruct (detectEach headers 0 headers [] [] 0) as [[m sg] total].
  cbn [snd] in H. cbn [confidence]. now rewrite H.
Qed.

Lemma lookup_detectColumns (headers : list string) (index : nat) (h : string) :
  nth_error headers index = Some h ->
  lookup (mapping (detectColumns headers)) index
  = Some (dtype (detectColumnType h index headers)).
Proof.
  intros Hnth. rewrite detectColumns_mapping.
  exact (lookup_entriesOf (fun h i => dtype (detectColumnType h i headers)) headers 0 index h Hnth).
Qed.

Lemma detectColumnType_total (header : string) (index : nat) (allHeaders : list string) :
  normalizeHeader header = "total" ->
  detectColumnType header index allHeaders
  = {| dtype := T_amount; dconfidence := 100; dsuggestions := [T_amount] |}.
Proof. intros H. unfold detectColumnType. rewrite H. vm_compute. reflexivity. Qed.

(** C10. A header whose normalized form is exactly "total" is detected as
    [amount] with confidence 100, and [detectColumns] maps its column to
    [amount], never to [total]: "total" is an alias of [amount], which the
    exact-match scan reaches before [total].  So when some column of the
    mapping is typed [total], as the financial-statement rule asks, it is
    another column, whose header does not normalize to "total". *)
Theorem total_header_maps_to_amount (headers : list string) (index : nat)
  (header : string) :
  nth_error headers index = Some header ->
  normalizeHeader header = "total" ->
  detectColumnType header index headers
  = {| dtype := T_amount; dconfidence := 100; dsuggestions := [T_amount] |}
  /\ lookup (mapping (detectColumns headers)) index = Some T_amount
  /\ lookup (mapping (detectColumns headers)) index <> Some T_total
  /\ (includesType (map snd (mapping (detectColumns headers))) T_total = true ->
      exists j h, j <> index /\ nth_error headers j = Some h /\
                  normalizeHeader h <> "total" /\
                  lookup (mapping (detectColumns headers)) j = Some T_total).
Proof.
  intros Hnth Hnorm.
  pose proof (detectColumnType_total header index headers Hnorm) as Hdet.
  assert (Hlook : lookup (mapping (detectColumns headers)) index = Some T_amount).
  { rewrite (lookup_detectColumns headers index header Hnth).
    now rewrite Hdet. }
  split; [exact Hdet|]. split; [exact Hlook|]. split.
  - rewrite Hlook. discriminate.
  - intros Hinc. rewrite detectColumns_mapping in Hinc.
    destruct (includesType_entriesOf (fun h i => dtype (detectColumnType h i headers)) T_total headers 0 Hinc)
      as (j & h & Hj & Ht).
    cbv beta in Ht. change (0 + j)%nat with j in Ht.
    assert (Hh : normalizeHeader h <> "total").
    { intros Hn.
      rewrite (detectColumnType_total h j headers Hn) in Ht.
      discriminate Ht. }
    exists j, h. split.
    + intros ->. rewrite Hnth in Hj. injection Hj as ->. contradiction.
    + split; [exact Hj|]. split; [exact Hh|].
      rewrite (lookup_detectColumns headers j h Hj). now rewrite Ht.
Qed.

Lemma total_header_maps_to_amount_witness :
  let headers := ["Account"; "Jan 2025"; " TOTAL "] in
  lookup (mapping (detectColumns headers)) 2 = Some T_amount /\
  detectedFormat (detectColumns ["Account"; "Total"]) = Unknown.
Proof.
  cbv zeta. split; [|vm_compute; reflexivity].
  apply (total_header_maps_to_amount ["Account"; "Jan 2025"; " TOTAL "] 2 " TOTAL ");
    vm_compute; reflexivity.
Defined.

Lemma detectLoop_confidence_range (normalized : string) :
  forall cat sugg bestMatch bestScore,
    0 <= bestScore ->
    0 <= dconfidence (detectLoop normalized cat sugg bestMatch bestScore) <= 100.
Proof.
  induction cat as [|[cType aliases] rest IH]; intros sugg bestMatch bestScore Hb; simpl.
  - lia.
  - destruct (existsb _ aliases); simpl; [lia|].
    destruct (0 <? matchScore normalized aliases) eqn:Hpos; [|now apply IH].
    apply Z.ltb_lt in Hpos.
    destruct (bestScore <? matchScore normalized aliases); apply IH; lia.
Qed.

Lemma detectColumnType_confidence_range (header : string) (index : nat)
  (allHeaders : list string) :
  0 <= dconfidence (detectColumnType header index allHeaders) <= 100.
Proof. unfold detectColumnType. apply detectLoop_confidence_range. lia. Qed.

Lemma confidenceFrom_range (allHeaders : list string) :
  forall hs index,
    0 <= confidenceFrom allHeaders index hs <= 100 * Z.of_nat (List.length hs).
Proof.
  induction hs as [|h r IH]; intros index.
  - simpl. lia.
  - cbn [confidenceFrom List.length].
    pose proof (detectColumnType_confidence_range h index allHeaders) as Hc.
    specialize (IH (S index)). lia.
Qed.

(** X20. For a non-empty list of [n] headers, with [total] the sum of the
    per-column confidences, [detectColumns] reports a number (never NaN):
    an integer nearest to [100 * total / n], that is, [2 * n * c] is within
    [n] of [200 * total].  Each per-column confidence lies between 0 and
    100, so [total] lies between 0 and [100 * n] and the reported value
    between 0 and 10000: it is a hundred times the mean, rounded, and not
    the mean rounded.  (Which way an exact half goes is left open.) *)
Lemma detectColumns_confidence_scale (headers : list string) :
  headers <> [] ->
  let n := Z.of_nat (List.length headers) in
  let total := confidenceFrom headers 0 headers in
  exists c,
    confidence (detectColumns headers) = Some c /\
    0 <= total <= 100 * n /\
    2 * n * c - n <= 200 * total <= 2 * n * c + n /\
    0 <= c <= 10000.
Proof.
  intros Hne. cbv zeta. rewrite detectColumns_confidence.
  pose proof (confidenceFrom_range headers headers 0) as Hr.
  generalize dependent (confidenceFrom headers 0 headers). intros total Hr.
  destruct headers as [|h r]; [contradiction|].
  assert (Hn : (0 < List.length (h :: r))%nat) by (simpl; lia).
  generalize dependent (List.length (h :: r)). intros n Hr Hn.
  unfold roundedAverage. destruct n as [|n']; [lia|].
  eexists. split; [reflexivity|].
  set (d := Z.of_nat (S n')) in *.
  assert (Hd : 0 < d) by (subst d; lia).
  clearbody d.
  split; [exact Hr|].
  assert (Hq : 200 * total + d
               = 2 * d * ((200 * total + d) / (2 * d)) + (200 * total + d) mod (2 * d))
    by (apply Z.div_mod; lia).
  assert (Hm : 0 <= (200 * total + d) mod (2 * d) < 2 * d)
    by (apply Z.mod_pos_bound; lia).
  split; [lia|].
  split.
  - apply Z.div_pos; lia.
  - apply Z.lt_succ_r, Z.div_lt_upper_bound; lia.
Qed.

(** C2 (the code departs from the claim). On the one-column header list
    ["Date"], and on the three exact headers of a bank statement, the
    reported confidence is 10000: the mean of the per-column scores is
    multiplied by 100 before rounding, so the result leaves the range
    0..100 the [DetectedColumns] interface documents. *)
Theorem detectColumns_confidence_exceeds_100 :
  confidence (detectColumns ["Date"]) = Some 10000 /\
  dconfidence (detectColumnType "Date" 0 ["Date"]) = 100 /\
  confidence (detectColumns ["Date"; "Description"; "Amount"]) = Some 10000 /\
  confidence (detectColumns ["Amount USD"; "Payee"]) = Some 4000.
Proof. repeat split; vm_compute; reflexivity. Qed.

(* ================================================================= *)
(** ** Alias scoring *)

Lemma aliasScore_nonneg (normalized alias : string) : 0 <= aliasScore normalized alias.
Proof.
  unfold aliasScore.
  repeat match goal with |- context [if ?b then _ else _] => destruct b end; lia.
Qed.

Lemma matchStep_aliasScore (normalized : string) (score : Z) (alias : string) :
  matchStep normalized score alias = score + aliasScore normalized alias.
Proof.
  unfold matchStep, aliasScore. rewrite (String.eqb_sym alias normalized).
  repeat match goal with |- context [if ?b then _ else _] => destruct b end; lia.
Qed.

Lemma fold_matchStep (normalized : string) :
  forall aliases score,
    fold_left (matchStep normalized) aliases score
    = score + fold_right Z.add 0 (map (aliasScore normalized) aliases).
Proof.
  induction aliases as [|a r IH]; intros score; simpl; [lia|].
  rewrite IH, matchStep_aliasScore. lia.
Qed.

(** C5 as the code has it. The match score of a type is the SUM over the
    type's aliases of the individual alias scores (100 for an exact match,
    80 when the normalized header contains the alias, 60 when the alias
    contains it, 40 when the two are similar, else 0); the maximum alias
    score, which [scoreSuggestion] uses to rank suggestions, is a lower
    bound of it. *)
Theorem matchScore_is_sum (normalized : string) (aliases : list string) :
  matchScore normalized aliases
  = fold_right Z.add 0 (map (aliasScore normalized) aliases)
  /\ Spec.maxAliasScore normalized aliases <= matchScore normalized aliases.
Proof.
  unfold matchScore. rewrite fold_matchStep, Z.add_0_l.
  split; [reflexivity|].
  unfold Spec.maxAliasScore.
  induction aliases as [|a r IH]; simpl; [lia|].
  pose proof (aliasScore_nonneg normalized a).
  assert (0 <= fold_right Z.add 0 (map (aliasScore normalized) r)).
  { clear IH. induction r as [|b r IHr]; simpl; [lia|].
    pose proof (aliasScore_nonneg normalized b). lia. }
  lia.
Qed.

(** C5 as stated fails: for the header "Transaction Date Posted" and the
    type [date], four aliases score (80, 80, 80 and 40), the match score is
    their sum 280 and not their maximum 80. *)
Lemma matchScore_is_not_max :
  let normalized := normalizeHeader "Transaction Date Posted" in
  let aliases := aliasesOf T_date COLUMN_ALIASES in
  map (aliasScore normalized) aliases = [80; 80; 0; 80; 0; 40] /\
  matchScore normalized aliases = 280 /\
  Spec.maxAliasScore normalized aliases = 80 /\
  matchScore normalized aliases <> Spec.maxAliasScore normalized aliases.
Proof. cbv zeta. repeat split; try (vm_compute; reflexivity). vm_compute. discriminate. Qed.

(* ================================================================= *)
(** ** The Name field of a mapped row *)

Lemma mapCell_name_other (rawRow : list string) (acc : Row) (index : nat)
  (t : ColumnType) :
  Spec.isNameType t = false ->
  get (mapCell rawRow acc (index, t)) "Name" = get acc "Name".
Proof.
  intros Ht. destruct t; try discriminate Ht; simpl;
    try reflexivity; now autorewrite with row.
Qed.

Lemma mapCell_name_set (rawRow : list string) (acc : Row) (index : nat)
  (t : ColumnType) :
  Spec.isNameType t = true ->
  get (mapCell rawRow acc (index, t)) "Name"
  = Some (JS.orElse (cell rawRow index) (JS.orElseOpt (get acc "Name") "")).
Proof.
  intros Ht. destruct t; try discriminate Ht; simpl; now autorewrite with row.
Qed.

Lemma orElse_empty_r (a : string) : JS.orElse a "" = a.
Proof.
  unfold JS.orElse. destruct (JS.truthy a) eqn:E; [reflexivity|].
  symmetry. now apply falsy_is_empty.
Qed.

Lemma orElseOpt_some_empty (a : string) : JS.orElseOpt (Some a) "" = a.
Proof. apply orElse_empty_r. Qed.

Lemma last_cons_default {A} (l : list A) (x d : A) :
  last (x :: l) d = last l x.
Proof.
  revert x d. induction l as [|y r IH]; intros x d; [reflexivity|].
  cbn [last]. cbn [last] in IH. rewrite (IH y d). now rewrite (IH y x).
Qed.

Lemma fold_mapCell_name (rawRow : list string) :
  forall (m : ColumnMapping) (acc : Row),
    get (fold_left (mapCell rawRow) m acc) "Name"
    = match Spec.nameCells rawRow m with
      | [] => get acc "Name"
      | cells => Some (lastNonEmptyFrom (JS.orElseOpt (get acc "Name") "") cells)
      end.
Proof.
  induction m as [|[index t] m IH]; intros acc; [reflexivity|].
  cbn [fold_left]. rewrite IH. unfold Spec.nameCells. cbn [filter snd fst].
  destruct (Spec.isNameType t) eqn:Ht.
  - cbn [map fst].
    fold (Spec.nameCells rawRow m).
    rewrite (mapCell_name_set rawRow acc index t Ht).
    set (prev := JS.orElseOpt (get acc "Name") "").
    rewrite orElseOpt_some_empty.
    unfold lastNonEmptyFrom. cbn [filter].
    unfold JS.orElse.
    destruct (JS.truthy (cell rawRow index)) eqn:Hv.
    + rewrite last_cons_default.
      destruct (Spec.nameCells rawRow m); reflexivity.
    + destruct (Spec.nameCells rawRow m); reflexivity.
  - fold (Spec.nameCells rawRow m).
    rewrite (mapCell_name_other rawRow acc index t Ht). reflexivity.
Qed.

(** C6 as the code has it. Columns typed [description] and [name] both
    write the field Name, and the LAST non-empty cell among them (in column
    order) is the value kept; an empty cell never erases a Name already
    set.  Without such a column the row has no Name. *)
Theorem mapRow_name_last_non_empty (rawRow : list string) (m : ColumnMapping)
  (headers : list string) :
  get (mapRow rawRow m headers) "Name"
  = match Spec.nameCells rawRow m with
    | [] => None
    | cells => Some (lastNonEmpty cells)
    end.
Proof.
  unfold mapRow. rewrite fold_mapCell_name. reflexivity.
Qed.

(** C6 as stated fails: with a [name] column holding "Rent" followed by a
    [description] column holding "Apartment lease", the mapping that
    [detectColumns] itself builds for these headers, the later description
    overwrites the Name already set. *)
Lemma mapRow_description_overwrites_name :
  let headers := ["Item Name"; "Memo"; "Amount"] in
  let rawRow := ["Rent"; "Apartment lease"; "1200"] in
  let m := mapping (detectColumns headers) in
  m = [(0%nat, T_name); (1%nat, T_description); (2%nat, T_amount)] /\
  Spec.firstNonEmpty (Spec.nameCells rawRow m) = "Rent" /\
  get (mapRow rawRow m headers) "Name" = Some "Apartment lease" /\
  get (mapRow rawRow m headers) "Name"
  <> Some (Spec.firstNonEmpty (Spec.nameCells rawRow m)).
Proof. cbv zeta. repeat split; try (vm_compute; reflexivity). vm_compute. discriminate. Qed.

(* ================================================================= *)
(** ** The bank-statement extractor *)

Lemma get_setDefault_other (row : Row) (key key' value : string) :
  key <> key' -> get (setDefault row key value) key' = get row key'.
Proof.
  intros Hne. unfold setDefault.
  destruct (negb (JS.truthyOpt (get row key))); [|reflexivity].
  now apply get_set_other.
Qed.

Lemma setDefault_present (row : Row) (key value v : string) :
  get row key = Some v -> JS.truthy v = true -> setDefault row key value = row.
Proof. intros Hg Hv. unfold setDefault. now rewrite Hg; simpl; rewrite Hv. Qed.

#[local] Hint Rewrite get_setDefault_other using string_neq : row.

Lemma bankRow_keeps (mappedRow : Row) (ty amount : string) :
  JS.truthy ty = true ->
  get mappedRow "Type" = Some ty ->
  get mappedRow "Amount" = Some amount ->
  get (bankRow_defaults mappedRow) "Type" = Some ty /\
  get (bankRow_defaults mappedRow) "Amount" = Some amount.
Proof.
  intros Hty Ht Ha. unfold bankRow_defaults.
  rewrite (setDefault_present mappedRow "Type" "Expense" ty Ht Hty).
  autorewrite with row. now split.
Qed.

Lemma absent_reads_zero (v : option string) :
  JS.truthyOpt v = false -> JS.orElseOpt v "0" = "0".
Proof.
  destruct v as [s|]; simpl; [|reflexivity].
  unfold JS.orElse. now intros ->.
Qed.

Lemma bankRow_inference (mappedRow : Row) :
  (JSNumber.gt0 (debitOf mappedRow) = true ->
   get (bankRow mappedRow) "Type" = Some "Expense" /\
   get (bankRow mappedRow) "Amount" = Some (JSNumber.toString (debitOf mappedRow)))
  /\
  (JSNumber.gt0 (debitOf mappedRow) = false ->
   JSNumber.gt0 (creditOf mappedRow) = true ->
   get (bankRow mappedRow) "Type" = Some "Income" /\
   get (bankRow mappedRow) "Amount" = Some (JSNumber.toString (creditOf mappedRow))).
Proof.
  unfold bankRow, inferDebitCredit.
  fold (debitOf mappedRow). fold (creditOf mappedRow).
  destruct (JS.truthyOpt (get mappedRow "Debit") || JS.truthyOpt (get mappedRow "Credit"))%bool
    eqn:Hpresent.
  - split.
    + intros Hd. rewrite Hd.
      apply bankRow_keeps; [reflexivity | now autorewrite with row ..].
    + intros Hd Hc. rewrite Hd, Hc.
      apply bankRow_keeps; [reflexivity | now autorewrite with row ..].
  - apply orb_false_iff in Hpresent. destruct Hpresent as [Hd0 Hc0].
    unfold debitOf, creditOf.
    rewrite (absent_reads_zero _ Hd0), (absent_reads_zero _ Hc0).
    split; [intros H | intros _ H]; vm_compute in H; discriminate H.
Qed.

Lemma bankLoop_rows (hs : list string) (dc : DetectedColumns) :
  forall dataLines rs raw,
    fst (bankLoop dataLines hs dc rs raw)
    = (rs ++ map (fun rawRow => bankRow (mapRow rawRow (mapping dc) hs))
               (filter (fun rawRow => negb (isEmptyRow rawRow)) dataLines))%list.
Proof.
  induction dataLines as [|rawRow rest IH]; intros rs raw; cbn [bankLoop filter map].
  - cbn [fst]. now rewrite app_nil_r.
  - destruct (isEmptyRow rawRow); cbn [negb map].
    + apply IH.
    + rewrite IH, <- app_assoc. reflexivity.
Qed.

(** C7. The bank-statement extractor emits exactly one row for each data
    row of the grid that is not empty, in the order of the grid, and that
    row is settled by its data row: with [debit] and [credit] the numbers
    [parseFloat] reads from the Debit and Credit fields the column mapping
    gives the data row (an empty or missing field reads as 0), if
    [debit > 0] the emitted row has Type "Expense" and Amount
    [String(debit)]; otherwise, if [credit > 0], it has Type "Income" and
    Amount [String(credit)].  On a statement with the rows Debit=50,
    Credit=0 and Debit=0, Credit=200, parsed from its text, the two rows are
    Expense "50" and Income "200". *)
Theorem bank_statement_debit_credit_inference :
  (forall (csvLines : list (list string)) (hs : list string) (dc : DetectedColumns),
      let dataRows :=
        filter (fun rawRow => negb (isEmptyRow rawRow)) (skipn 1 csvLines) in
      let emitted := rows (parseBankStatementCSV csvLines hs dc) in
      List.length emitted = List.length dataRows /\
      forall (i : nat) (rawRow : list string),
        nth_error dataRows i = Some rawRow ->
        exists row,
          nth_error emitted i = Some row /\
          let mappedRow := mapRow rawRow (mapping dc) hs in
          let debit := debitOf mappedRow in
          let credit := creditOf mappedRow in
          (JSNumber.gt0 debit = true ->
           get row "Type" = Some "Expense" /\
           get row "Amount" = Some (JSNumber.toString debit)) /\
          (JSNumber.gt0 debit = false -> JSNumber.gt0 credit = true ->
           get row "Type" = Some "Income" /\
           get row "Amount" = Some (JSNumber.toString credit)))
  /\
  map (fun row => (get row "Type", get row "Amount"))
      (rowsOf (parseCSV
                 ("Date,Description,Debit,Credit" ++ String newline
                  ("2025-01-02,Coffee,50,0" ++ String newline
                   "2025-01-03,Paycheck,0,200"))))
  = [ (Some "Expense", Some "50"); (Some "Income", Some "200") ].
Proof.
  split; [|vm_compute; reflexivity].
  intros csvLines hs dc. cbv zeta.
  unfold parseBankStatementCSV.
  pose proof (bankLoop_rows hs dc (skipn 1 csvLines) [] [hs]) as Hrows.
  destruct (bankLoop (skipn 1 csvLines) hs dc [] [hs]) as [rs raw].
  cbn [rows fst app] in Hrows |- *. subst rs.
  split; [apply length_map|].
  intros i rawRow Hnth.
  exists (bankRow (mapRow rawRow (mapping dc) hs)). split.
  - rewrite nth_error_map, Hnth. reflexivity.
  - apply bankRow_inference.
Qed.

Lemma bank_statement_debit_credit_inference_witness :
  let hs := ["Date"; "Description"; "Debit"; "Credit"] in
  let csvLines := [hs; ["2025-01-02"; "Coffee"; "50"; "0"];
                   [""; ""; ""; ""];
                   ["2025-01-03"; "Paycheck"; ""; "200.50"]] in
  let emitted := rows (parseBankStatementCSV csvLines hs (detectColumns hs)) in
  List.length emitted = 2%nat /\
  exists row,
    nth_error emitted 1 = Some row /\
    get row "Type" = Some "Income" /\
    get row "Amount" = Some "200.5".
Proof.
  cbv zeta.
  pose proof (proj1 bank_statement_debit_credit_inference
                [["Date"; "Description"; "Debit"; "Credit"];
                 ["2025-01-02"; "Coffee"; "50"; "0"];
                 [""; ""; ""; ""];
                 ["2025-01-03"; "Paycheck"; ""; "200.50"]]
                ["Date"; "Description"; "Debit"; "Credit"]
                (detectColumns ["Date"; "Description"; "Debit"; "Credit"])) as H.
  cbv zeta in H. destruct H as [Hlen Hrow].
  split; [rewrite Hlen; vm_compute; reflexivity|].
  assert (Hnth : nth_error
                   (filter (fun rawRow => negb (isEmptyRow rawRow))
                      (skipn 1 [["Date"; "Description"; "Debit"; "Credit"];
                                ["2025-01-02"; "Coffee"; "50"; "0"];
                                [""; ""; ""; ""];
                                ["2025-01-03"; "Paycheck"; ""; "200.50"]])) 1
                 = Some ["2025-01-03"; "Paycheck"; ""; "200.50"])
    by (vm_compute; reflexivity).
  destruct (Hrow 1%nat _ Hnth) as (row & Hemitted & _ & Hcredit).
  exists row. split; [exact Hemitted|].
  assert (Hd : JSNumber.gt0
                 (debitOf (mapRow ["2025-01-03"; "Paycheck"; ""; "200.50"]
                             (mapping (detectColumns ["Date"; "Description"; "Debit"; "Credit"]))
                             ["Date"; "Description"; "Debit"; "Credit"])) = false)
    by (vm_compute; reflexivity).
  assert (Hc : JSNumber.gt0
                 (creditOf (mapRow ["2025-01-03"; "Paycheck"; ""; "200.50"]
                              (mapping (detectColumns ["Date"; "Description"; "Debit"; "Credit"]))
                              ["Date"; "Description"; "Debit"; "Credit"])) = true)
    by (vm_compute; reflexivity).
  destruct (Hcredit Hd Hc) as [Hty Ham].
  split; [exact Hty|].
  rewrite Ham. vm_compute. reflexivity.
Defined.

(* ================================================================= *)
(** ** The format a parse reports *)

Lemma splitAux_nonempty (sep : ascii) :
  forall s cur, JS.splitAux sep cur s <> [].
Proof.
  induction s as [|c r IH]; intros cur; cbn [JS.splitAux]; [discriminate|].
  destruct (Ascii.eqb c sep); [discriminate | apply IH].
Qed.

(** [parseCSV] always returns, and the format it reports is never
    [unknown]: the flexible parser it falls back to writes [simple] for
    every detection other than [bank-statement]. *)
Lemma parseCSV_never_unknown (content : string) :
  exists d, parseCSV content = Returns d /\ format d <> Unknown.
Proof.
  unfold parseCSV.
  destruct (JS.split newline (JS.trim content)) as [|l ls] eqn:Hsplit.
  { exfalso. exact (splitAux_nonempty newline _ _ Hsplit). }
  cbn [map]. cbv beta iota zeta.
  generalize (detectColumns (map JS.trim (parseCSVLine l))). intros dc.
  destruct (detectedFormat dc) eqn:Hfmt.
  - unfold parseBankStatementCSV.
    destruct (bankLoop _ _ _ _ _) as [rs raw].
    eexists. split; [reflexivity|]. cbn [format]. discriminate.
  - unfold parseFinancialStatementCSV.
    destruct (statementLoop _ _ _ _ _) as [rs raw].
    eexists. split; [reflexivity|]. cbn [format]. discriminate.
  - unfold parseFlexibleCSV.
    destruct (flexibleLoop _ _ _ _ _) as [rs raw].
    eexists. split; [reflexivity|]. cbn [format]. rewrite Hfmt. discriminate.
  - unfold parseFlexibleCSV.
    destruct (flexibleLoop _ _ _ _ _) as [rs raw].
    eexists. split; [reflexivity|]. cbn [format]. rewrite Hfmt. discriminate.
Qed.

(** C3 (the code departs from the claim). The file with the header
    "Payee,Qty" is detected as [unknown] with confidence 0; parsing it
    returns without throwing, but the dataset it returns reports the format
    [simple], not [unknown].  No input does better: the format [parseCSV]
    reports is never [unknown]. *)
Theorem parseCSV_unknown_reported_as_simple :
  (exists d,
      parseCSV ("Payee,Qty" ++ String newline "Acme Corp,3") = Returns d /\
      option_map detectedFormat (detectedColumns d) = Some Unknown /\
      columnMappingConfidence d = Some (Some 0) /\
      format d = Simple /\
      rows d = [])
  /\ (forall content, exists d, parseCSV content = Returns d /\ format d <> Unknown).
Proof.
  split; [|exact parseCSV_never_unknown].
  eexists. split; [vm_compute; reflexivity|].
  repeat split; reflexivity.
Qed.

(* ================================================================= *)
(** ** The financial-statement extractor *)

Lemma statementLoop_rows (totalColumnIndex : Z) :
  forall ls currentType rs raw,
    fst (statementLoop totalColumnIndex ls currentType rs raw)
    = (rs ++ statementRows totalColumnIndex ls currentType)%list.
Proof.
  induction ls as [|l rest IH]; intros currentType rs raw.
  - cbn [statementLoop statementRows fst]. now rewrite app_nil_r.
  - cbn [statementLoop statementRows]. unfold classifyLine. cbv zeta.
    destruct (negb (JS.truthy (JS.trim l))); [apply IH|].
    destruct (negb (JS.truthy (JS.orElseOpt
                (option_map JS.trim (nth_error (parseCSVLine (JS.trim l)) 0)) "")));
      [apply IH|].
    destruct (String.eqb (JS.toLowerCase (JS.trim (JS.orElseOpt
                (option_map JS.trim (nth_error (parseCSVLine (JS.trim l)) 0)) "")))
                "income"); [apply IH|].
    destruct (String.eqb (JS.toLowerCase (JS.trim (JS.orElseOpt
                (option_map JS.trim (nth_error (parseCSVLine (JS.trim l)) 0)) "")))
                "expense"); [apply IH|].
    destruct (isSummaryRow (JS.trim (JS.orElseOpt
                (option_map JS.trim (nth_error (parseCSVLine (JS.trim l)) 0)) "")));
      [apply IH|].
    destruct currentType as [ty|]; [|apply IH].
    unfold itemRows, totalIsNumber, totalCell. cbv zeta.
    destruct (JS.truthy (cleanAmountOf (JS.orElseOpt
                (JS.at_ (parseCSVLine (JS.trim l)) totalColumnIndex) "")));
      cbn [negb orb andb].
    + destruct (JSNumber.isNaN _); cbn [negb].
      * apply IH.
      * rewrite IH, <- app_assoc. reflexivity.
    + apply IH.
Qed.

Lemma removeChars_app (cls : ascii -> bool) (a b : string) :
  JS.removeChars cls (a ++ b) = (JS.removeChars cls a ++ JS.removeChars cls b)%string.
Proof.
  induction a as [|c r IH]; [reflexivity|].
  cbn [append JS.removeChars]. destruct (cls c); rewrite IH; reflexivity.
Qed.

Lemma itemRows_at_most_one (totalColumnIndex : Z) (ty : SectionType)
  (values : list string) (name : string) :
  (List.length (itemRows totalColumnIndex ty values name) <= 1)%nat.
Proof. unfold itemRows. destruct (totalIsNumber _ values); cbn [List.length]; lia. Qed.

Lemma itemRows_undated (totalColumnIndex : Z) (ty : SectionType)
  (values : list string) (name : string) (row : ParsedRow) :
  In row (itemRows totalColumnIndex ty values name) ->
  get row "Transaction Date" = None /\ get row "Month" = None /\ get row "Date" = None.
Proof.
  unfold itemRows.
  destruct (totalIsNumber _ values); cbn [In]; [|contradiction].
  intros [<-|[]]. unfold statementRow. cbn [get].
  repeat split; destruct ty; reflexivity.
Qed.

Lemma statementRows_length (totalColumnIndex : Z) :
  forall ls currentType,
    (List.length (statementRows totalColumnIndex ls currentType) <= List.length ls)%nat.
Proof.
  induction ls as [|l rest IH]; intros currentType; cbn [statementRows List.length].
  - lia.
  - destruct (classifyLine l) as [ | s | | values name ].
    + specialize (IH currentType). lia.
    + specialize (IH (Some s)). lia.
    + specialize (IH currentType). lia.
    + destruct currentType as [ty|].
      * rewrite length_app.
        pose proof (itemRows_at_most_one totalColumnIndex ty values name).
        specialize (IH (Some ty)). lia.
      * specialize (IH None). lia.
Qed.

Lemma statementRows_undated (totalColumnIndex : Z) (row : ParsedRow) :
  forall ls currentType,
    In row (statementRows totalColumnIndex ls currentType) ->
    get row "Transaction Date" = None /\ get row "Month" = None /\ get row "Date" = None.
Proof.
  induction ls as [|l rest IH]; intros currentType; cbn [statementRows].
  - intros [].
  - destruct (classifyLine l) as [ | s | | values name ]; try apply IH.
    destruct currentType as [ty|]; [|apply IH].
    intros Hin. apply in_app_or in Hin. destruct Hin as [Hin|Hin].
    + exact (itemRows_undated _ _ _ _ _ Hin).
    + exact (IH _ Hin).
Qed.

(** C1 (the code departs from the claim). The statement of the
    repository's own test has the month columns Jan, Feb and Mar 2025 and
    four line items, each with three non-zero month values: the claim, and
    the test, call for twelve rows, three per line item, each with its
    month's value as Amount and a first-of-month date.  The parse returns
    four rows, one per line item, whose Amount is the Total cell and which
    carry no date.  On the test's second statement, the line item
    Entertainment 0, 100, 100 gives a row with the total and no date.  On
    every statement the parse emits no more rows than there are lines after
    the header, and no row has a Transaction Date, Month or Date field:
    the month columns are never read. *)
Theorem statement_months_not_exploded :
  let nl := String newline "" in
  let headerLine := "Account Name,Jan 2025,Feb 2025,Mar 2025,Total" in
  let items := [ "Salary,5000,5000,5000,15000"; "Freelance,1000,2000,1500,4500";
                 "Rent,2000,2000,2000,6000"; "Utilities,300,350,320,970" ] in
  let content :=
    JS.join nl [ headerLine; "Income"; "Salary,5000,5000,5000,15000";
                 "Freelance,1000,2000,1500,4500"; "Expense";
                 "Rent,2000,2000,2000,6000"; "Utilities,300,350,320,970" ] in
  let content' :=
    JS.join nl [ "Account Name,Jan 2025,Feb 2025,Total"; "Expense";
                 "Rent,3000,3000,6000"; "Entertainment,0,100,100" ] in
  map (fun item => Spec.nonZeroMonths (parseCSVLine headerLine) (parseCSVLine item)) items
  = [3; 3; 3; 3]%nat
  /\ (exists d,
         parseCSV content = Returns d /\
         format d = FinancialStatement /\
         rows d = [ statementRow income "Salary" "15000";
                    statementRow income "Freelance" "4500";
                    statementRow expense "Rent" "6000";
                    statementRow expense "Utilities" "970" ])
  /\ List.length (rowsOf (parseCSV content)) = 4%nat
  /\ map (fun row => get row "Transaction Date") (rowsOf (parseCSV content))
     = [None; None; None; None]
  /\ rowsOf (parseCSV content')
     = [ statementRow expense "Rent" "6000"; statementRow expense "Entertainment" "100" ]
  /\ (forall (line0 : string) (ls : list string),
         exists d,
           parseFinancialStatementCSV (line0 :: ls) = Returns d /\
           (List.length (rows d) <= List.length ls)%nat /\
           forall row, In row (rows d) ->
             get row "Transaction Date" = None /\
             get row "Month" = None /\
             get row "Date" = None).
Proof.
  cbv zeta. repeat (split; [vm_compute; reflexivity|]).
  split; [eexists; split; [vm_compute; reflexivity|]; split; reflexivity|].
  repeat (split; [vm_compute; reflexivity|]).
  intros line0 ls.
  unfold parseFinancialStatementCSV. fold (totalColumnIndexOf line0). cbn [skipn].
  pose proof (statementLoop_rows (totalColumnIndexOf line0) ls None []
                [map JS.trim (parseCSVLine line0)]) as H.
  destruct (statementLoop _ _ _ _ _) as [rs raw].
  cbn [fst app] in H. subst rs.
  eexists. split; [reflexivity|]. cbn [rows]. split.
  - apply statementRows_length.
  - intros row. apply statementRows_undated.
Qed.

(* ================================================================= *)
(** ** Accounting notation *)

(** C4 (the code departs from the claim). The statement of the
    repository's own test has the line item Refund with the cells (500), 0
    and the Total cell (500): the claim, and the test, call for the Amount
    "-500".  The parse returns one row with the Amount "500", which reads
    as the positive number 500, where "-500" reads as the negative one.
    The cleaning removes the characters [,$()] and negates nothing: for
    every cell text, wrapping it in parentheses does not change what it
    cleans to. *)
Theorem accounting_parentheses_not_negated :
  let nl := String newline "" in
  let content :=
    JS.join nl [ "Account,Jan 2025,Feb 2025,Total"; "Expense"; "Refund,(500),0,(500)" ] in
  rowsOf (parseCSV content) = [statementRow expense "Refund" "500"]
  /\ map (fun row => get row "Amount") (rowsOf (parseCSV content)) = [Some "500"]
  /\ cleanAmountOf "(500)" = "500"
  /\ JSNumber.parseFloat (cleanAmountOf "(500)") = JSNumber.Dec false 500 0
  /\ JSNumber.lt0 (JSNumber.parseFloat (cleanAmountOf "(500)")) = false
  /\ JSNumber.parseFloat "-500" = JSNumber.Dec true 500 0
  /\ (forall v : string, cleanAmountOf ("(" ++ v ++ ")") = cleanAmountOf v).
Proof.
  cbv zeta. repeat (split; [vm_compute; reflexivity|]).
  intros v. unfold cleanAmountOf.
  change ("(" ++ v ++ ")")%string with (String "(" (v ++ ")")).
  cbn [JS.removeChars]. change (isAmountNoise "(") with true. cbv iota.
  rewrite removeChars_app. cbn [JS.removeChars].
  change (isAmountNoise ")") with true. cbv iota.
  induction (JS.removeChars isAmountNoise v) as [|c r IH]; [reflexivity|].
  cbn [append]. now rewrite IH.
Qed.

(* ================================================================= *)
(** ** More on column detection *)

Lemma detectEach_keys (allHeaders : list string) :
  forall hs index m sg total,
    map fst (fst (fst (detectEach allHeaders index hs m sg total)))
    = (map fst m ++ seq index (List.length hs))%list
    /\ map fst (snd (fst (detectEach allHeaders index hs m sg total)))
       = (map fst sg ++ seq index (List.length hs))%list.
Proof.
  induction hs as [|h r IH]; intros index m sg total;
    cbn [detectEach List.length seq]; cbv beta zeta.
  - cbn [fst snd]. now rewrite !app_nil_r.
  - destruct (IH (S index)
                (m ++ [(index, dtype (detectColumnType h index allHeaders))])%list
                (sg ++ [(index, dsuggestions (detectColumnType h index allHeaders))])%list
                (total + dconfidence (detectColumnType h index allHeaders)))
      as [Hm Hs].
    rewrite Hm, Hs, !map_app, <- !app_assoc. split; reflexivity.
Qed.

(** X1. [detectColumns] gives every header column exactly one entry, in
    column order: the keys of the mapping, and of the suggestions, are
    0, 1, ..., n-1 for n headers. *)
Theorem detectColumns_covers_every_column (hs : list string) :
  map fst (mapping (detectColumns hs)) = seq 0 (List.length hs)
  /\ map fst (suggestions (detectColumns hs)) = seq 0 (List.length hs).
Proof.
  unfold detectColumns.
  pose proof (detectEach_keys hs hs 0 [] [] 0) as H.
  destruct (detectEach hs 0 hs [] [] 0) as [[m sg] total].
  cbn [fst snd map app mapping suggestions] in *. exact H.
Qed.

Lemma detectLoop_suggestions_length (normalized : string) :
  forall cat sugg bestMatch bestScore,
    (1 <= List.length (dsuggestions (detectLoop normalized cat sugg bestMatch bestScore))
     <= 3)%nat.
Proof.
  induction cat as [|[cType aliases] rest IH]; intros sugg bestMatch bestScore;
    cbn [detectLoop].
  - cbv zeta. cbn [dsuggestions].
    pose proof (firstn_le_length 3 (sortSuggestions normalized sugg)) as Hle.
    destruct (firstn 3 (sortSuggestions normalized sugg)) as [|x l].
    + cbn [List.length]. lia.
    + cbn [List.length] in *. lia.
  - destruct (existsb _ aliases); [cbn [dsuggestions List.length]; lia|].
    cbv zeta.
    destruct (0 <? matchScore normalized aliases); [|apply IH].
    destruct (bestScore <? matchScore normalized aliases); apply IH.
Qed.

(** X2. Whatever the header, [detectColumnType] returns at least one and
    at most three suggestions. *)
Theorem detectColumnType_suggestions_between_1_and_3 (header : string) (index : nat)
  (allHeaders : list string) :
  (1 <= List.length (dsuggestions (detectColumnType header index allHeaders)) <= 3)%nat.
Proof. unfold detectColumnType. apply detectLoop_suggestions_length. Qed.

Lemma catalog_ignore_has_no_alias (t : ColumnType) (al : list string) :
  In (t, al) COLUMN_ALIASES -> t = T_ignore -> al = [].
Proof.
  unfold COLUMN_ALIASES. cbn [In].
  intros H Ht. subst t.
  repeat (destruct H as [H|H]; [inversion H; try reflexivity|]).
  contradiction.
Qed.

Lemma detectLoop_ignore_iff (normalized : string) :
  forall cat sugg bestMatch bestScore,
    (forall t al, In (t, al) cat -> t = T_ignore -> al = []) ->
    0 <= bestScore ->
    (bestMatch = T_ignore <-> bestScore = 0) ->
    (dtype (detectLoop normalized cat sugg bestMatch bestScore) = T_ignore
     <-> dconfidence (detectLoop normalized cat sugg bestMatch bestScore) = 0).
Proof.
  induction cat as [|[cType aliases] rest IH];
    intros sugg bestMatch bestScore Hcat Hpos Hinv; cbn [detectLoop].
  - cbv zeta. cbn [dtype dconfidence]. rewrite Hinv. lia.
  - assert (Hrest : forall t al, In (t, al) rest -> t = T_ignore -> al = []).
    { intros t al Hin. apply Hcat. now right. }
    assert (Hself : cType = T_ignore -> aliases = []).
    { apply Hcat. now left. }
    destruct (existsb (fun alias => String.eqb normalized alias) aliases) eqn:Hex.
    + cbn [dtype dconfidence]. split; [|discriminate].
      intros Hc. rewrite (Hself Hc) in Hex. discriminate Hex.
    + cbv zeta.
      destruct (0 <? matchScore normalized aliases) eqn:Hscore; [|now apply IH].
      apply Z.ltb_lt in Hscore.
      assert (Hne : cType <> T_ignore).
      { intros Hc. rewrite (Hself Hc) in Hscore. cbn in Hscore. lia. }
      destruct (bestScore <? matchScore normalized aliases); [|now apply IH].
      apply IH; [exact Hrest | lia |]. split; [contradiction | lia].
Qed.

(** X3. A column is typed [ignore] exactly when its confidence is 0: every
    recognised column has a positive confidence, and an unrecognised one
    has none. *)
Theorem detectColumnType_ignore_iff_zero_confidence (header : string) (index : nat)
  (allHeaders : list string) :
  dtype (detectColumnType header index allHeaders) = T_ignore
  <-> dconfidence (detectColumnType header index allHeaders) = 0.
Proof.
  unfold detectColumnType. apply detectLoop_ignore_iff.
  - exact catalog_ignore_has_no_alias.
  - lia.
  - split; reflexivity.
Qed.

Lemma existsb_eqb_In (normalized : string) (aliases : list string) :
  existsb (fun alias => String.eqb normalized alias) aliases = true
  <-> In normalized aliases.
Proof.
  rewrite existsb_exists. split.
  - intros (a & Hin & Heq). apply String.eqb_eq in Heq. now subst a.
  - intros Hin. exists normalized. split; [exact Hin | apply String.eqb_refl].
Qed.

Lemma detectLoop_exact (normalized : string) :
  forall cat sugg bestMatch bestScore,
    (exists t al, In (t, al) cat /\ In normalized al) ->
    exists t al,
      In (t, al) cat /\ In normalized al /\
      detectLoop normalized cat sugg bestMatch bestScore
      = {| dtype := t; dconfidence := 100; dsuggestions := [t] |}.
Proof.
  induction cat as [|[cType aliases] rest IH];
    intros sugg bestMatch bestScore (t & al & Hin & Hal).
  - contradiction.
  - cbn [detectLoop].
    destruct (existsb (fun alias => String.eqb normalized alias) aliases) eqn:Hex.
    + exists cType, aliases. split; [now left|]. split; [|reflexivity].
      now apply existsb_eqb_In.
    + assert (Hrest : exists t al, In (t, al) rest /\ In normalized al).
      { destruct Hin as [Heq|Hin]; [|now exists t, al].
        injection Heq as -> ->.
        apply existsb_eqb_In in Hal. rewrite Hal in Hex. discriminate Hex. }
      cbv zeta.
      destruct (0 <? matchScore normalized aliases);
        [destruct (bestScore <? matchScore normalized aliases)|];
        match goal with
        | |- context [detectLoop normalized rest ?s ?m ?b] =>
            destruct (IH s m b Hrest) as (t' & al' & Hin' & Hal' & Heq);
            exists t', al'; split; [now right|]; split; [exact Hal' | exact Heq]
        end.
Qed.

Lemma aliasesOf_catalog (t : ColumnType) (al : list string) :
  In (t, al) COLUMN_ALIASES -> aliasesOf t COLUMN_ALIASES = al.
Proof.
  unfold COLUMN_ALIASES. cbn [In]. intros H.
  repeat (destruct H as [H|H]; [inversion H; reflexivity|]).
  contradiction.
Qed.

Lemma catalog_aliasesOf (t : ColumnType) (normalized : string) :
  In normalized (aliasesOf t COLUMN_ALIASES) ->
  In (t, aliasesOf t COLUMN_ALIASES) COLUMN_ALIASES.
Proof.
  intros H. destruct t; cbn [aliasesOf COLUMN_ALIASES ColumnType_eqb] in *;
    cbn [In]; try contradiction;
    repeat (first [left; reflexivity | right]).
Qed.

(** X4. A header whose normalized form is one of the aliases of some
    column type is detected with confidence 100, with the detected type as
    its only suggestion, and the detected type is one that lists that
    alias. *)
Theorem detectColumnType_exact_alias (header : string) (index : nat)
  (allHeaders : list string) (t : ColumnType) :
  In (normalizeHeader header) (aliasesOf t COLUMN_ALIASES) ->
  dconfidence (detectColumnType header index allHeaders) = 100
  /\ dsuggestions (detectColumnType header index allHeaders)
     = [dtype (detectColumnType header index allHeaders)]
  /\ In (normalizeHeader header)
        (aliasesOf (dtype (detectColumnType header index allHeaders)) COLUMN_ALIASES).
Proof.
  intros Hal. unfold detectColumnType.
  destruct (detectLoop_exact (normalizeHeader header) COLUMN_ALIASES [] T_ignore 0)
    as (t' & al' & Hin' & Hal' & Heq).
  { exists t, (aliasesOf t COLUMN_ALIASES). split; [|exact Hal].
    now apply (catalog_aliasesOf t (normalizeHeader header)). }
  rewrite Heq. cbn [dtype dconfidence dsuggestions].
  split; [reflexivity|]. split; [reflexivity|].
  now rewrite (aliasesOf_catalog t' al' Hin').
Qed.

Lemma detectColumnType_exact_alias_witness :
  let r := detectColumnType " Account_Name " 0 [" Account_Name "] in
  In (normalizeHeader " Account_Name ") (aliasesOf T_name COLUMN_ALIASES) /\
  dconfidence r = 100 /\ dtype r = T_account.
Proof.
  cbv zeta.
  assert (Hal : In (normalizeHeader " Account_Name ") (aliasesOf T_name COLUMN_ALIASES)).
  { vm_compute. right. left. reflexivity. }
  split; [exact Hal|].
  split; [|vm_compute; reflexivity].
  exact (proj1 (detectColumnType_exact_alias " Account_Name " 0 [" Account_Name "]
                  T_name Hal)).
Defined.

Lemma detectColumns_confidence_scale_witness :
  ["Date"; "Payee"; "Qty"] <> [] /\
  confidenceFrom ["Date"; "Payee"; "Qty"] 0 ["Date"; "Payee"; "Qty"] = 100 /\
  confidence (detectColumns ["Date"; "Payee"; "Qty"]) = Some 3333.
Proof.
  assert (Hne : ["Date"; "Payee"; "Qty"] <> @nil string) by discriminate.
  assert (Htotal : confidenceFrom ["Date"; "Payee"; "Qty"] 0 ["Date"; "Payee"; "Qty"] = 100)
    by (vm_compute; reflexivity).
  split; [exact Hne|]. split; [exact Htotal|].
  destruct (detectColumns_confidence_scale ["Date"; "Payee"; "Qty"] Hne)
    as (c & Hc & _ & Hnear & _).
  rewrite Htotal in Hnear. cbn [List.length] in Hnear.
  rewrite Hc. f_equal. lia.
Defined.

(* ================================================================= *)
(** ** Strings: append, reversal and trimming *)

Lemma sapp_nil_r (s : string) : (s ++ "")%string = s.
Proof. induction s as [|c r IH]; [reflexivity|]. cbn [append]. now rewrite IH. Qed.

Lemma sapp_assoc (a b c : string) : ((a ++ b) ++ c)%string = (a ++ (b ++ c))%string.
Proof. induction a as [|x r IH]; [reflexivity|]. cbn [append]. now rewrite IH. Qed.

Lemma rev_app (a b : string) : JS.rev (a ++ b) = (JS.rev b ++ JS.rev a)%string.
Proof.
  induction a as [|x r IH]; cbn [append JS.rev].
  - now rewrite sapp_nil_r.
  - now rewrite IH, sapp_assoc.
Qed.

Lemma rev_involutive (s : string) : JS.rev (JS.rev s) = s.
Proof.
  induction s as [|c r IH]; [reflexivity|].
  cbn [JS.rev]. rewrite rev_app, IH. reflexivity.
Qed.

Lemma rev_empty (s : string) : JS.rev s = "" -> s = "".
Proof.
  intros H. rewrite <- (rev_involutive s), H. reflexivity.
Qed.

Lemma trimStart_snoc (x : string) (c : ascii) :
  JS.trimStart (x ++ String c "")
  = if String.eqb (JS.trimStart x) ""
    then (if JS.isSpace c then "" else String c "")
    else (JS.trimStart x ++ String c "")%string.
Proof.
  induction x as [|a r IH]; cbn [append JS.trimStart].
  - destruct (JS.isSpace c); reflexivity.
  - destruct (JS.isSpace a); [exact IH | reflexivity].
Qed.

Lemma trimEnd_rec (s : string) : JS.trimEnd s = trimEndRec s.
Proof.
  unfold JS.trimEnd.
  induction s as [|c r IH]; [reflexivity|].
  cbn [JS.rev trimEndRec]. rewrite trimStart_snoc, <- IH.
  destruct (String.eqb (JS.trimStart (JS.rev r)) "") eqn:E.
  - apply String.eqb_eq in E. rewrite E. cbn [JS.rev String.eqb].
    rewrite andb_true_r. destruct (JS.isSpace c); reflexivity.
  - rewrite rev_app. cbn [JS.rev append].
    destruct (String.eqb (JS.rev (JS.trimStart (JS.rev r))) "") eqn:E'.
    + apply String.eqb_eq, rev_empty in E'. rewrite E' in E. discriminate E.
    + now rewrite andb_false_r.
Qed.

Lemma trimEndRec_idempotent (s : string) : trimEndRec (trimEndRec s) = trimEndRec s.
Proof.
  induction s as [|c r IH]; [reflexivity|].
  cbn [trimEndRec].
  destruct (JS.isSpace c && String.eqb (trimEndRec r) "")%bool eqn:E; [reflexivity|].
  cbn [trimEndRec]. now rewrite IH, E.
Qed.

Lemma trimStart_noLeadingSpace (s : string) : noLeadingSpace (JS.trimStart s) = true.
Proof.
  induction s as [|c r IH]; [reflexivity|].
  cbn [JS.trimStart]. destruct (JS.isSpace c) eqn:E; [exact IH|].
  cbn [noLeadingSpace]. now rewrite E.
Qed.

Lemma trimStart_fixed (s : string) : noLeadingSpace s = true -> JS.trimStart s = s.
Proof.
  destruct s as [|c r]; [reflexivity|].
  cbn [noLeadingSpace JS.trimStart]. intros H.
  apply negb_true_iff in H. now rewrite H.
Qed.

Lemma trimEndRec_noLeadingSpace (s : string) :
  noLeadingSpace s = true -> noLeadingSpace (trimEndRec s) = true.
Proof.
  destruct s as [|c r]; [reflexivity|].
  cbn [noLeadingSpace trimEndRec]. intros H.
  apply negb_true_iff in H. rewrite H. cbn [andb noLeadingSpace]. now rewrite H.
Qed.

Lemma trim_idempotent (s : string) : JS.trim (JS.trim s) = JS.trim s.
Proof.
  unfold JS.trim. rewrite !trimEnd_rec.
  rewrite (trimStart_fixed (trimEndRec (JS.trimStart s))).
  - apply trimEndRec_idempotent.
  - apply trimEndRec_noLeadingSpace, trimStart_noLeadingSpace.
Qed.

(* ================================================================= *)
(** ** The tokenizer *)

Lemma parseCSVLineLoop_trimmed_upto (n : nat) :
  forall line result current insideQuotes,
    (String.length line <= n)%nat ->
    Forall (fun c => JS.trim c = c) result ->
    parseCSVLineLoop line result current insideQuotes <> [] /\
    Forall (fun c => JS.trim c = c)
      (parseCSVLineLoop line result current insideQuotes).
Proof.
  induction n as [|n IH]; intros line result current insideQuotes Hlen Hres.
  - destruct line as [|char rest]; [|cbn [String.length] in Hlen; lia].
    cbn [parseCSVLineLoop]. split; [destruct result; discriminate|].
    apply Forall_app. split; [exact Hres|].
    constructor; [apply trim_idempotent | constructor].
  - assert (Hpush : forall cur,
               Forall (fun c => JS.trim c = c) (result ++ [JS.trim cur])%list).
    { intros cur. apply Forall_app. split; [exact Hres|].
      constructor; [apply trim_idempotent | constructor]. }
    destruct line as [|char rest]; cbn [parseCSVLineLoop].
    + split; [destruct result; discriminate | apply Hpush].
    + cbn [String.length] in Hlen.
      destruct (Ascii.eqb char quoteChar).
      * destruct insideQuotes.
        -- destruct rest as [|nextChar rest'].
           ++ apply IH; [cbn [String.length]; lia | exact Hres].
           ++ cbn [String.length] in Hlen.
              destruct (Ascii.eqb nextChar quoteChar);
                (apply IH; [cbn [String.length]; lia | exact Hres]).
        -- apply IH; [lia | exact Hres].
      * destruct (Ascii.eqb char "," && negb insideQuotes)%bool.
        -- apply IH; [lia | apply Hpush].
        -- apply IH; [lia | exact Hres].
Qed.

(** X5. Whatever the line, the tokenizer returns at least one cell, and
    every cell it returns is trimmed: trimming it again changes nothing. *)
Theorem parseCSVLine_cells_trimmed (line : string) :
  parseCSVLine line <> []
  /\ Forall (fun c => JS.trim c = c) (parseCSVLine line).
Proof.
  unfold parseCSVLine.
  apply (parseCSVLineLoop_trimmed_upto (String.length line)); [lia | constructor].
Qed.

Lemma rev_snoc (cur : string) (c : ascii) :
  JS.rev (String c cur) = (JS.rev cur ++ String c "")%string.
Proof. reflexivity. Qed.

Lemma parseCSVLineLoop_unquoted :
  forall line result cur,
    noneOf isQuote line = true ->
    parseCSVLineLoop line result (JS.rev cur) false
    = (result ++ map JS.trim (JS.splitAux "," cur line))%list.
Proof.
  induction line as [|char rest IH]; intros result cur Hq; cbn [parseCSVLineLoop JS.splitAux].
  - reflexivity.
  - cbn [noneOf] in Hq. apply andb_true_iff in Hq. destruct Hq as [Hc Hrest].
    unfold isQuote in Hc. apply negb_true_iff in Hc. rewrite Hc.
    cbn [negb]. rewrite andb_true_r.
    destruct (Ascii.eqb char ","); cbn [map].
    + change EmptyString with (JS.rev EmptyString) at 1.
      rewrite IH by exact Hrest. rewrite <- app_assoc. reflexivity.
    + rewrite <- rev_snoc. now apply IH.
Qed.

(** X6. On a line that holds no double quote, the tokenizer is a split on
    the commas followed by a trim of every piece. *)
Theorem parseCSVLine_unquoted (line : string) :
  noneOf isQuote line = true ->
  parseCSVLine line = map JS.trim (JS.split "," line).
Proof.
  intros Hq. unfold parseCSVLine, JS.split.
  change EmptyString with (JS.rev EmptyString) at 1.
  now rewrite parseCSVLineLoop_unquoted.
Qed.

Lemma parseCSVLine_unquoted_witness :
  noneOf isQuote " 2025-11-15 , Salary Deposit,5000 " = true /\
  parseCSVLine " 2025-11-15 , Salary Deposit,5000 "
  = ["2025-11-15"; "Salary Deposit"; "5000"].
Proof.
  assert (Hq : noneOf isQuote " 2025-11-15 , Salary Deposit,5000 " = true)
    by (vm_compute; reflexivity).
  split; [exact Hq|].
  rewrite (parseCSVLine_unquoted " 2025-11-15 , Salary Deposit,5000 " Hq).
  vm_compute. reflexivity.
Defined.

(* ================================================================= *)
(** ** The flexible and bank-statement extractors *)

Lemma flexibleLoop_rows (hs : list string) (dc : DetectedColumns) :
  forall dataLines rs raw,
    flexibleLoop dataLines hs dc rs raw
    = ((rs ++ map (fun rawRow => mapRow rawRow (mapping dc) hs)
               (filter (keptByFlexible hs dc) dataLines))%list,
       (raw ++ filter (keptByFlexible hs dc) dataLines)%list).
Proof.
  induction dataLines as [|rawRow rest IH]; intros rs raw;
    cbn [flexibleLoop filter map].
  - now rewrite !app_nil_r.
  - destruct (isEmptyRow rawRow) eqn:He.
    + assert (Hk : keptByFlexible hs dc rawRow = false)
        by (unfold keptByFlexible; now rewrite He).
      rewrite Hk. apply IH.
    + destruct (hasMeaningfulData (mapRow rawRow (mapping dc) hs)) eqn:Hm; cbn [negb].
      * assert (Hk : keptByFlexible hs dc rawRow = true)
          by (unfold keptByFlexible; now rewrite He, Hm).
        rewrite Hk. cbn [map]. rewrite IH, <- !app_assoc. reflexivity.
      * assert (Hk : keptByFlexible hs dc rawRow = false)
          by (unfold keptByFlexible; now rewrite He, Hm).
        rewrite Hk. apply IH.
Qed.

(** X7. The flexible extractor keeps, in order, exactly the data rows that
    are not empty and whose mapped row has some non-blank field: [rawData]
    is the header row followed by the kept raw rows, [rows] holds the
    mapped row of each of them, and every emitted row has a non-blank
    field. *)
Theorem parseFlexibleCSV_rows (csvLines : list (list string)) (hs : list string)
  (dc : DetectedColumns) :
  let d := parseFlexibleCSV csvLines hs dc in
  rawData d = hs :: filter (keptByFlexible hs dc) (skipn 1 csvLines)
  /\ rows d = map (fun rawRow => mapRow rawRow (mapping dc) hs) (tl (rawData d))
  /\ Forall (fun row => hasMeaningfulData row = true) (rows d).
Proof.
  cbv zeta. unfold parseFlexibleCSV.
  rewrite flexibleLoop_rows. cbn [rows rawData app tl].
  split; [reflexivity|]. split; [reflexivity|].
  apply Forall_forall. intros row Hin.
  apply in_map_iff in Hin. destruct Hin as (rawRow & <- & Hraw).
  apply filter_In in Hraw. destruct Hraw as [_ Hkept].
  unfold keptByFlexible in Hkept. apply andb_true_iff in Hkept. tauto.
Qed.

Lemma bankLoop_raw (hs : list string) (dc : DetectedColumns) :
  forall dataLines rs raw,
    snd (bankLoop dataLines hs dc rs raw)
    = (raw ++ filter (fun rawRow => negb (isEmptyRow rawRow)) dataLines)%list.
Proof.
  induction dataLines as [|rawRow rest IH]; intros rs raw; cbn [bankLoop filter].
  - cbn [snd]. now rewrite app_nil_r.
  - destruct (isEmptyRow rawRow); cbn [negb].
    + apply IH.
    + rewrite IH, <- app_assoc. reflexivity.
Qed.

(** X8. The bank-statement extractor emits one row for every data row that
    has a non-empty cell, in order, and drops nothing else: [rawData] is the
    header row followed by those raw rows, and [rows] holds the processed
    row of each of them. *)
Theorem parseBankStatementCSV_rows (csvLines : list (list string)) (hs : list string)
  (dc : DetectedColumns) :
  let d := parseBankStatementCSV csvLines hs dc in
  rawData d = hs :: filter (fun rawRow => negb (isEmptyRow rawRow)) (skipn 1 csvLines)
  /\ rows d = map (fun rawRow => bankRow (mapRow rawRow (mapping dc) hs)) (tl (rawData d))
  /\ List.length (rawData d) = S (List.length (rows d)).
Proof.
  cbv zeta. unfold parseBankStatementCSV.
  pose proof (bankLoop_rows hs dc (skipn 1 csvLines) [] [hs]) as Hrows.
  pose proof (bankLoop_raw hs dc (skipn 1 csvLines) [] [hs]) as Hraw.
  destruct (bankLoop (skipn 1 csvLines) hs dc [] [hs]) as [rs raw].
  cbn [fst snd app rows rawData] in *. subst rs raw. cbn [tl].
  split; [reflexivity|]. split; [reflexivity|].
  cbn [List.length]. now rewrite length_map.
Qed.

Lemma setDefault_truthy (row : Row) (key value : string) :
  JS.truthy value = true ->
  JS.truthyOpt (get (setDefault row key value) key) = true.
Proof.
  intros Hv. unfold setDefault.
  destruct (JS.truthyOpt (get row key)) eqn:E; cbn [negb]; [exact E|].
  rewrite get_set_same. exact Hv.
Qed.

Lemma get_inferDebitCredit_other (mappedRow : Row) (key : string) :
  key <> "Type" -> key <> "Amount" ->
  get (inferDebitCredit mappedRow) key = get mappedRow key.
Proof.
  intros Ht Ha. unfold inferDebitCredit.
  destruct (JS.truthyOpt (get mappedRow "Debit") || JS.truthyOpt (get mappedRow "Credit"))%bool;
    [|reflexivity].
  destruct (JSNumber.gt0 _).
  - rewrite !get_set_other by congruence. reflexivity.
  - destruct (JSNumber.gt0 _); [|reflexivity].
    rewrite !get_set_other by congruence. reflexivity.
Qed.

(** X9. Every row the bank-statement extractor builds has a non-empty
    Type, Frequency, Category and Name, and its Date, Debit and Credit are
    the mapped cells, untouched. *)
Theorem bankRow_defaults_and_verbatim_fields (mappedRow : Row) :
  (JS.truthyOpt (get (bankRow mappedRow) "Type") = true
   /\ JS.truthyOpt (get (bankRow mappedRow) "Frequency") = true
   /\ JS.truthyOpt (get (bankRow mappedRow) "Category") = true
   /\ JS.truthyOpt (get (bankRow mappedRow) "Name") = true)
  /\ get (bankRow mappedRow) "Date" = get mappedRow "Date"
  /\ get (bankRow mappedRow) "Debit" = get mappedRow "Debit"
  /\ get (bankRow mappedRow) "Credit" = get mappedRow "Credit".
Proof.
  unfold bankRow, bankRow_defaults. split; [|split; [|split]].
  - repeat split.
    + autorewrite with row. now apply setDefault_truthy.
    + autorewrite with row. now apply setDefault_truthy.
    + autorewrite with row. now apply setDefault_truthy.
    + now apply setDefault_truthy.
  - autorewrite with row. apply get_inferDebitCredit_other; string_neq.
  - autorewrite with row. apply get_inferDebitCredit_other; string_neq.
  - autorewrite with row. apply get_inferDebitCredit_other; string_neq.
Qed.

(* ================================================================= *)
(** ** More on the financial-statement extractor and [parseCSV] *)

Lemma findIndexFrom_none {A} (p : A -> bool) :
  forall l i, forallb (fun x => negb (p x)) l = true -> JS.findIndexFrom p i l = -1.
Proof.
  induction l as [|x r IH]; intros i H; [reflexivity|].
  cbn [forallb] in H. apply andb_true_iff in H. destruct H as [Hx Hr].
  cbn [JS.findIndexFrom]. apply negb_true_iff in Hx. rewrite Hx. now apply IH.
Qed.

Lemma itemRows_no_total (ty : SectionType) (values : list string) (name : string) :
  itemRows (-1) ty values name = [].
Proof. reflexivity. Qed.

Lemma statementRows_no_total :
  forall ls currentType, statementRows (-1) ls currentType = [].
Proof.
  induction ls as [|l rest IH]; intros currentType; [reflexivity|].
  cbn [statementRows].
  destruct (classifyLine l); try apply IH.
  destruct currentType; [|apply IH].
  rewrite itemRows_no_total. apply IH.
Qed.

(** X10. A statement whose header row has no cell equal to "total"
    (whatever the case) parses without error to no rows at all, whatever
    its lines hold: every line item is read at the missing Total column. *)
Theorem statement_without_total_column_has_no_rows (headerLine : string)
  (ls : list string) :
  forallb (fun h => negb (String.eqb (JS.toLowerCase h) "total"))
    (map JS.trim (parseCSVLine headerLine)) = true ->
  exists d, parseFinancialStatementCSV (headerLine :: ls) = Returns d /\ rows d = [].
Proof.
  intros Hno. unfold parseFinancialStatementCSV.
  unfold JS.findIndex. rewrite (findIndexFrom_none _ _ 0 Hno). cbn [skipn].
  pose proof (statementLoop_rows (-1) ls None []
                [map JS.trim (parseCSVLine headerLine)]) as H.
  destruct (statementLoop _ _ _ _ _) as [rs raw].
  eexists. split; [reflexivity|]. cbn [rows fst app] in *.
  rewrite H. apply statementRows_no_total.
Qed.

Lemma statement_without_total_column_has_no_rows_witness :
  rowsOf (parseCSV ("Account,Jan 2025,Feb 2025" ++ String newline
                    ("Income" ++ String newline "Salary,5000,5000")))
  = [] /\
  exists d, parseFinancialStatementCSV
              ["Account,Jan 2025,Feb 2025"; "Income"; "Salary,5000,5000"] = Returns d
            /\ rows d = [].
Proof.
  split; [vm_compute; reflexivity|].
  apply (statement_without_total_column_has_no_rows "Account,Jan 2025,Feb 2025"
           ["Income"; "Salary,5000,5000"]).
  vm_compute. reflexivity.
Defined.

Lemma statementRows_no_section (totalColumnIndex : Z) :
  forall ls,
    Forall (fun l => isSectionMarker l = false) ls ->
    statementRows totalColumnIndex ls None = [].
Proof.
  induction ls as [|l rest IH]; intros Hall; [reflexivity|].
  inversion Hall as [|l' rest' Hl Hrest]; subst.
  cbn [statementRows].
  unfold isSectionMarker, accountNameOf in Hl.
  apply orb_false_iff in Hl. destruct Hl as [Hi He].
  unfold classifyLine. cbv zeta. rewrite Hi, He.
  destruct (negb (JS.truthy (JS.trim l))); [now apply IH|].
  destruct (negb (JS.truthy _)); [now apply IH|].
  destruct (isSummaryRow _); now apply IH.
Qed.

(** X11. Line items count only under a section: a statement in which no
    line has "income" or "expense" (whatever the case) as its first cell
    parses to no rows. *)
Theorem statement_without_section_has_no_rows (headerLine : string) (ls : list string) :
  Forall (fun l => isSectionMarker l = false) ls ->
  exists d, parseFinancialStatementCSV (headerLine :: ls) = Returns d /\ rows d = [].
Proof.
  intros Hall. unfold parseFinancialStatementCSV. cbn [skipn].
  pose proof (statementLoop_rows
                (JS.findIndex (fun h => String.eqb (JS.toLowerCase h) "total")
                   (map JS.trim (parseCSVLine headerLine)))
                ls None [] [map JS.trim (parseCSVLine headerLine)]) as H.
  destruct (statementLoop _ _ _ _ _) as [rs raw].
  eexists. split; [reflexivity|]. cbn [rows fst app] in *.
  rewrite H. now apply statementRows_no_section.
Qed.

Lemma statement_without_section_has_no_rows_witness :
  Forall (fun l => isSectionMarker l = false) ["Salary,5000,5000"; "Rent,1200,1200"] /\
  exists d, parseFinancialStatementCSV
              ["Account,Jan 2025,Total"; "Salary,5000,5000"; "Rent,1200,1200"] = Returns d
            /\ rows d = [].
Proof.
  assert (Hall : Forall (fun l => isSectionMarker l = false)
                   ["Salary,5000,5000"; "Rent,1200,1200"]).
  { repeat constructor; vm_compute; reflexivity. }
  split; [exact Hall|].
  exact (statement_without_section_has_no_rows "Account,Jan 2025,Total"
           ["Salary,5000,5000"; "Rent,1200,1200"] Hall).
Defined.

Lemma splitAux_no_separator (sep : ascii) :
  forall s cur,
    noneOf (fun c => Ascii.eqb c sep) s = true ->
    JS.splitAux sep cur s = [(JS.rev cur ++ s)%string].
Proof.
  induction s as [|c r IH]; intros cur H; cbn [JS.splitAux].
  - now rewrite sapp_nil_r.
  - cbn [noneOf] in H. apply andb_true_iff in H. destruct H as [Hc Hr].
    apply negb_true_iff in Hc. rewrite Hc.
    rewrite IH by exact Hr. cbn [JS.rev]. now rewrite sapp_assoc.
Qed.

(** X12. A file that is a single line once trimmed (a header and nothing
    else) parses without error to no rows, whichever format its header is
    detected as. *)
Theorem parseCSV_header_only (content : string) :
  noneOf isNewline (JS.trim content) = true ->
  exists d, parseCSV content = Returns d /\ rows d = [].
Proof.
  intros Hnl. unfold parseCSV, JS.split.
  rewrite (splitAux_no_separator newline (JS.trim content) EmptyString Hnl).
  cbn [JS.rev append map]. cbv beta iota zeta.
  generalize (detectColumns (map JS.trim (parseCSVLine (JS.trim content)))).
  intros dc.
  destruct (detectedFormat dc) eqn:Hfmt; eexists; (split; [reflexivity|]);
    reflexivity.
Qed.

Lemma parseCSV_header_only_witness :
  noneOf isNewline (JS.trim "  Date,Description,Amount  ") = true /\
  exists d, parseCSV "  Date,Description,Amount  " = Returns d /\ rows d = [].
Proof.
  assert (Hnl : noneOf isNewline (JS.trim "  Date,Description,Amount  ") = true)
    by (vm_compute; reflexivity).
  split; [exact Hnl|].
  exact (parseCSV_header_only "  Date,Description,Amount  " Hnl).
Defined.

(** X13. Whenever [parseCSV] reports the format [bank-statement] or
    [financial-statement], the headers of the dataset it returns make
    [detectCSVType] answer [income-expense]: the rows of such a dataset are
    always sent to the income/expense validator. *)
Theorem parseCSV_statement_formats_are_income_expense (content : string)
  (d : ParsedCSVData) :
  parseCSV content = Returns d ->
  format d = BankStatement \/ format d = FinancialStatement ->
  detectCSVType (headers d) = IncomeExpense.
Proof.
  unfold parseCSV.
  destruct (JS.split newline (JS.trim content)) as [|l ls] eqn:Hsplit.
  { discriminate. }
  cbn [map]. cbv beta iota zeta.
  generalize (detectColumns (map JS.trim (parseCSVLine l))). intros dc.
  destruct (detectedFormat dc) eqn:Hfmt.
  - unfold parseBankStatementCSV.
    destruct (bankLoop _ _ _ _ _) as [rs raw].
    intros Hd _. injection Hd as <-. vm_compute. reflexivity.
  - unfold parseFinancialStatementCSV.
    destruct (statementLoop _ _ _ _ _) as [rs raw].
    intros Hd _. injection Hd as <-. vm_compute. reflexivity.
  - unfold parseFlexibleCSV.
    destruct (flexibleLoop _ _ _ _ _) as [rs raw].
    intros Hd Hf. injection Hd as <-. cbn [format] in Hf. rewrite Hfmt in Hf.
    destruct Hf; discriminate.
  - unfold parseFlexibleCSV.
    destruct (flexibleLoop _ _ _ _ _) as [rs raw].
    intros Hd Hf. injection Hd as <-. cbn [format] in Hf. rewrite Hfmt in Hf.
    destruct Hf; discriminate.
Qed.

Lemma parseCSV_statement_formats_are_income_expense_witness :
  exists d,
    parseCSV ("Date,Description,Amount" ++ String newline "2025-11-15,Salary Deposit,5000")
    = Returns d /\
    format d = BankStatement /\
    detectCSVType (headers d) = IncomeExpense.
Proof.
  eexists. split; [vm_compute; reflexivity|]. split; [reflexivity|].
  eapply (parseCSV_statement_formats_are_income_expense
            ("Date,Description,Amount" ++ String newline "2025-11-15,Salary Deposit,5000")).
  - vm_compute. reflexivity.
  - left. reflexivity.
Defined.

(* ================================================================= *)
(** ** The validators against the extractors *)

Lemma gt0_present (v : option string) :
  JSNumber.gt0 (JSNumber.parseFloat (JS.orElseOpt v "0")) = true ->
  JS.truthyOpt v = true.
Proof.
  intros H. destruct (JS.truthyOpt v) eqn:E; [reflexivity|].
  rewrite (absent_reads_zero v E) in H. vm_compute in H. discriminate H.
Qed.

(** X14. On a row whose Debit and Credit both read as positive numbers the
    two readers disagree: the bank-statement validator infers the type
    [income] (its credit test comes last), while the bank-statement
    extractor gives the row the Type "Expense" (its debit test comes
    first). *)
Theorem debit_and_credit_positive_disagreement (row : Row) :
  JSNumber.gt0 (debitOf row) = true ->
  JSNumber.gt0 (creditOf row) = true ->
  BankValidation.inferredType (BankValidation.validateBankStatementRow row)
  = Some BankValidation.inferredIncome
  /\ get (bankRow row) "Type" = Some "Expense".
Proof.
  intros Hd Hc. split.
  - unfold BankValidation.validateBankStatementRow. cbv zeta.
    unfold debitOf in Hd. unfold creditOf in Hc.
    rewrite (gt0_present _ Hd). cbn [orb]. rewrite Hd, Hc. reflexivity.
  - now apply (proj1 (bankRow_inference row)).
Qed.

Lemma debit_and_credit_positive_disagreement_witness :
  let row := [("Date", "2025-01-05"); ("Name", "Transfer"); ("Debit", "40"); ("Credit", "40")] in
  JSNumber.gt0 (debitOf row) = true /\
  JSNumber.gt0 (creditOf row) = true /\
  BankValidation.inferredType (BankValidation.validateBankStatementRow row)
  = Some BankValidation.inferredIncome /\
  get (bankRow row) "Type" = Some "Expense".
Proof.
  cbv zeta.
  assert (Hd : JSNumber.gt0 (debitOf [("Date", "2025-01-05"); ("Name", "Transfer");
                                      ("Debit", "40"); ("Credit", "40")]) = true)
    by (vm_compute; reflexivity).
  assert (Hc : JSNumber.gt0 (creditOf [("Date", "2025-01-05"); ("Name", "Transfer");
                                       ("Debit", "40"); ("Credit", "40")]) = true)
    by (vm_compute; reflexivity).
  split; [exact Hd|]. split; [exact Hc|].
  exact (debit_and_credit_positive_disagreement _ Hd Hc).
Defined.

Lemma removeChars_idempotent (cls : ascii -> bool) (s : string) :
  JS.removeChars cls (JS.removeChars cls s) = JS.removeChars cls s.
Proof.
  induction s as [|c r IH]; [reflexivity|].
  cbn [JS.removeChars]. destruct (cls c) eqn:E; [exact IH|].
  cbn [JS.removeChars]. now rewrite E, IH.
Qed.

Lemma classifyLine_item (l : string) (values : list string) (name : string) :
  classifyLine l = LineItem values name ->
  JS.truthy name = true /\ JS.trim name = name.
Proof.
  unfold classifyLine. cbv zeta.
  destruct (negb (JS.truthy (JS.trim l))); [discriminate|].
  destruct (nth_error (parseCSVLine (JS.trim l)) 0) as [v0|]; cbn [option_map JS.orElseOpt].
  - unfold JS.orElse at 1.
    destruct (JS.truthy (JS.trim v0)) eqn:Hv.
    + cbn [negb]. unfold JS.orElse. rewrite Hv.
      rewrite trim_idempotent.
      destruct (String.eqb _ "income"); [discriminate|].
      destruct (String.eqb _ "expense"); [discriminate|].
      destruct (isSummaryRow _); [discriminate|].
      intros H. injection H as _ <-.
      split; [exact Hv | apply trim_idempotent].
    + discriminate.
  - discriminate.
Qed.

Lemma typeErrors_statementRow (ty : SectionType) (name cleanAmount : string) :
  typeErrors (statementRow ty name cleanAmount) = [].
Proof. destruct ty; reflexivity. Qed.

(** X15. A row the financial-statement extractor emits for a line item
    passes the income/expense validator, except when its cleaned Total
    reads as a negative number: then the validator reports exactly
    "Amount must be positive". *)
Theorem statement_row_validation (l : string) (totalColumnIndex : Z)
  (ty : SectionType) (values : list string) (name : string) (row : ParsedRow) :
  classifyLine l = LineItem values name ->
  In row (itemRows totalColumnIndex ty values name) ->
  errors (validateIncomeExpenseRow row)
  = if JSNumber.lt0 (JSNumber.parseFloat
                       (cleanAmountOf (totalCell totalColumnIndex values)))
    then ["Amount must be positive"]
    else [].
Proof.
  intros Hitem Hin.
  destruct (classifyLine_item l values name Hitem) as [Hname Htrim].
  unfold itemRows in Hin.
  destruct (totalIsNumber totalColumnIndex values) eqn:Hnum; [|contradiction].
  destruct Hin as [<-|[]].
  unfold totalIsNumber in Hnum. cbv zeta in Hnum.
  apply andb_true_iff in Hnum. destruct Hnum as [Hclean Hnan].
  apply negb_true_iff in Hnan.
  set (clean := cleanAmountOf (totalCell totalColumnIndex values)) in *.
  unfold validateIncomeExpenseRow. cbn [errors].
  rewrite typeErrors_statementRow. cbn [app].
  assert (Hn : nameErrors (statementRow ty name clean) = []).
  { unfold nameErrors, statementRow. cbn [get String.eqb Ascii.eqb Bool.eqb].
    cbn [JS.truthyOpt JS.orElseOpt]. rewrite Hname. cbn [negb orb].
    rewrite (truthy_orElse name "" Hname), Htrim.
    unfold JS.truthy in Hname. apply negb_true_iff in Hname. now rewrite Hname. }
  assert (Hd : dateErrors (statementRow ty name clean) = []).
  { unfold dateErrors, statementRow. reflexivity. }
  rewrite Hn, Hd, app_nil_r. cbn [app].
  unfold amountErrors, statementRow. cbn [get String.eqb Ascii.eqb Bool.eqb].
  cbn [JS.truthyOpt JS.orElseOpt]. rewrite Hclean.
  rewrite (truthy_orElse clean "" Hclean). cbv zeta.
  assert (Hcc : cleanAmountOf clean = clean).
  { unfold clean, cleanAmountOf. apply removeChars_idempotent. }
  rewrite Hcc, Hnan. reflexivity.
Qed.

Lemma statement_row_validation_witness :
  let l := "Refunds,-120,-120" in
  let row := statementRow expense "Refunds" "-120" in
  classifyLine l = LineItem ["Refunds"; "-120"; "-120"] "Refunds" /\
  In row (itemRows 2 expense ["Refunds"; "-120"; "-120"] "Refunds") /\
  errors (validateIncomeExpenseRow row) = ["Amount must be positive"].
Proof.
  cbv zeta.
  assert (Hitem : classifyLine "Refunds,-120,-120"
                  = LineItem ["Refunds"; "-120"; "-120"] "Refunds")
    by (vm_compute; reflexivity).
  assert (Hin : In (statementRow expense "Refunds" "-120")
                   (itemRows 2 expense ["Refunds"; "-120"; "-120"] "Refunds"))
    by (vm_compute; left; reflexivity).
  split; [exact Hitem|]. split; [exact Hin|].
  rewrite (statement_row_validation _ _ _ _ _ _ Hitem Hin).
  vm_compute. reflexivity.
Defined.

(* ================================================================= *)
(** ** The plain fields of a mapped row *)

Lemma ColumnType_eqb_refl (t : ColumnType) : ColumnType_eqb t t = true.
Proof. destruct t; reflexivity. Qed.

Lemma mapCell_plain_same (rawRow : list string) (acc : Row) (index : nat)
  (t : ColumnType) (key : string) :
  plainField t = Some key ->
  get (mapCell rawRow acc (index, t)) key = Some (cell rawRow index).
Proof.
  intros Hk. destruct t; cbn [plainField] in Hk; try discriminate Hk;
    injection Hk as <-; cbn [mapCell]; apply get_set_same.
Qed.

Lemma mapCell_plain_other (rawRow : list string) (acc : Row) (index : nat)
  (t t' : ColumnType) (key : string) :
  plainField t = Some key ->
  ColumnType_eqb t t' = false ->
  get (mapCell rawRow acc (index, t')) key = get acc key.
Proof.
  intros Hk Hne.
  destruct t; cbn [plainField] in Hk; try discriminate Hk; injection Hk as <-;
    destruct t'; try discriminate Hne; cbn [mapCell];
    try reflexivity; apply get_set_other; string_neq.
Qed.

Lemma fold_mapCell_plain (rawRow : list string) (t : ColumnType) (key : string) :
  plainField t = Some key ->
  forall (m : ColumnMapping) (acc : Row),
    get (fold_left (mapCell rawRow) m acc) key
    = match cellsTyped t rawRow m with
      | [] => get acc key
      | cells => Some (last cells "")
      end.
Proof.
  intros Hk. induction m as [|[index t'] m IH]; intros acc; [reflexivity|].
  cbn [fold_left]. rewrite IH. unfold cellsTyped. cbn [filter snd].
  destruct (ColumnType_eqb t t') eqn:E.
  - apply ColumnType_eqb_eq in E. subst t'. cbn [map fst].
    fold (cellsTyped t rawRow m).
    rewrite (mapCell_plain_same rawRow acc index t key Hk).
    destruct (cellsTyped t rawRow m) as [|c cs]; [reflexivity|].
    rewrite (last_cons_default (c :: cs) (cell rawRow index) "").
    now rewrite (last_cons_default cs c ""), (last_cons_default cs c (cell rawRow index)).
  - fold (cellsTyped t rawRow m).
    now rewrite (mapCell_plain_other rawRow acc index t t' key Hk E).
Qed.

(** X16. For every field written by plain assignment (Type, Date, Amount,
    Debit, Credit, Category, Account, Frequency, Balance, Total), when
    several columns have the field's type the cell of the last one is kept,
    even when it is empty; without such a column the row has no such
    field. *)
Theorem mapRow_plain_field_last_column (rawRow : list string) (m : ColumnMapping)
  (headers : list string) (t : ColumnType) (key : string) :
  plainField t = Some key ->
  get (mapRow rawRow m headers) key
  = match cellsTyped t rawRow m with
    | [] => None
    | cells => Some (last cells "")
    end.
Proof.
  intros Hk. unfold mapRow. now rewrite (fold_mapCell_plain rawRow t key Hk).
Qed.

Lemma mapRow_plain_field_last_column_witness :
  let rawRow := ["2025-01-01"; ""] in
  let m := [(0%nat, T_date); (1%nat, T_date)] in
  plainField T_date = Some "Date" /\
  get (mapRow rawRow m ["Start Date"; "End Date"]) "Date" = Some "".
Proof.
  cbv zeta. split; [reflexivity|].
  rewrite (mapRow_plain_field_last_column ["2025-01-01"; ""]
             [(0%nat, T_date); (1%nat, T_date)] ["Start Date"; "End Date"]
             T_date "Date" eq_refl).
  vm_compute. reflexivity.
Defined.

(* ================================================================= *)
(** ** Exported lines read back by the tokenizer *)

Lemma noneOf_app (cls : ascii -> bool) (a b : string) :
  noneOf cls (a ++ b) = (noneOf cls a && noneOf cls b)%bool.
Proof.
  induction a as [|c r IH]; [reflexivity|].
  cbn [append noneOf]. now rewrite IH, andb_assoc.
Qed.

Lemma noneOf_rev (cls : ascii -> bool) (s : string) :
  noneOf cls (JS.rev s) = noneOf cls s.
Proof.
  induction s as [|c r IH]; [reflexivity|].
  cbn [JS.rev noneOf]. rewrite noneOf_app, IH. cbn [noneOf].
  rewrite andb_true_r. apply andb_comm.
Qed.

Lemma noneOf_dropZeros (cls : ascii -> bool) (s : string) :
  noneOf cls s = true -> noneOf cls (JSNumber.dropZeros s) = true.
Proof.
  induction s as [|c r IH]; intros H; [reflexivity|].
  assert (Hr : noneOf cls r = true).
  { cbn [noneOf] in H. apply andb_true_iff in H. tauto. }
  destruct c as [[] [] [] [] [] [] [] []]; cbn [JSNumber.dropZeros];
    first [exact H | now apply IH].
Qed.

Lemma noneOf_takeString (cls : ascii -> bool) :
  forall n s, noneOf cls s = true -> noneOf cls (JSNumber.takeString n s) = true.
Proof.
  induction n as [|n IH]; intros s H; [reflexivity|].
  destruct s as [|c r]; [reflexivity|].
  cbn [JSNumber.takeString noneOf] in *.
  apply andb_true_iff in H. destruct H as [Hc Hr].
  rewrite Hc. now apply IH.
Qed.

Lemma noneOf_dropString (cls : ascii -> bool) :
  forall n s, noneOf cls s = true -> noneOf cls (JSNumber.dropString n s) = true.
Proof.
  induction n as [|n IH]; intros s H; [destruct s; exact H|].
  destruct s as [|c r]; [reflexivity|].
  cbn [JSNumber.dropString noneOf] in *.
  apply andb_true_iff in H. destruct H as [_ Hr]. now apply IH.
Qed.

Lemma plain_zeros (n : nat) : noneOf isQuoteOrComma (JSNumber.zeros n) = true.
Proof. induction n as [|n IH]; [reflexivity|]. cbn [JSNumber.zeros noneOf]. now rewrite IH. Qed.

Lemma plain_string_of_uint (d : Decimal.uint) :
  noneOf isQuoteOrComma (NilEmpty.string_of_uint d) = true.
Proof.
  induction d; cbn [NilEmpty.string_of_uint noneOf]; try rewrite IHd; reflexivity.
Qed.

Ltac plain_pieces :=
  repeat rewrite noneOf_app;
  repeat (apply andb_true_iff; split);
  first [ reflexivity
        | apply plain_zeros
        | apply plain_string_of_uint
        | apply noneOf_takeString
        | apply noneOf_dropString
        | idtac ].

Lemma plain_toString (x : JSNumber.number) :
  noneOf isQuoteOrComma (JSNumber.toString x) = true.
Proof.
  destruct x as [|negative|negative m e].
  - reflexivity.
  - destruct negative; reflexivity.
  - unfold JSNumber.toString.
    destruct (N.eqb m 0); [reflexivity|]. cbv zeta.
    assert (Hdigits : noneOf isQuoteOrComma
                        (JS.rev (JSNumber.dropZeros
                                   (JS.rev (NilEmpty.string_of_uint (N.to_uint m)))))
                      = true).
    { rewrite noneOf_rev. apply noneOf_dropZeros.
      rewrite noneOf_rev. apply plain_string_of_uint. }
    set (digits := JS.rev (JSNumber.dropZeros
                             (JS.rev (NilEmpty.string_of_uint (N.to_uint m))))) in *.
    set (k := Z.of_nat (String.length digits)).
    set (n := k + (e + (Z.of_nat (String.length
                                    (NilEmpty.string_of_uint (N.to_uint m))) - k))).
    assert (Hsign : forall z : Z,
               noneOf isQuoteOrComma (if z <? 0 then "-" else "+") = true).
    { intros z. destruct (z <? 0); reflexivity. }
    assert (Hnat : forall j, noneOf isQuoteOrComma (JSNumber.natString j) = true).
    { intros j. apply plain_string_of_uint. }
    assert (Hbody : forall body, noneOf isQuoteOrComma body = true ->
                    noneOf isQuoteOrComma (if negative then "-" ++ body else body) = true).
    { intros body Hb. destruct negative; [|exact Hb].
      rewrite noneOf_app, Hb. reflexivity. }
    apply Hbody.
    destruct ((k <=? n) && (n <=? 21))%bool; [plain_pieces; exact Hdigits|].
    destruct ((0 <? n) && (n <=? 21))%bool; [plain_pieces; exact Hdigits|].
    destruct ((-6 <? n) && (n <=? 0))%bool; [plain_pieces; exact Hdigits|].
    destruct (k =? 1).
    + rewrite !noneOf_app, Hdigits, Hsign, Hnat. reflexivity.
    + rewrite !noneOf_app, Hsign, Hnat.
      rewrite (noneOf_takeString _ 1 digits Hdigits).
      rewrite (noneOf_dropString _ 1 digits Hdigits). reflexivity.
Qed.

Lemma quoteOrComma_split (c : ascii) :
  isQuoteOrComma c = false ->
  Ascii.eqb c quoteChar = false /\ Ascii.eqb c "," = false.
Proof. unfold isQuoteOrComma, isQuote, isComma. intros H. now apply orb_false_iff in H. Qed.

Lemma loop_plain :
  forall s rest result cur,
    noneOf isQuoteOrComma s = true ->
    parseCSVLineLoop (s ++ rest) result cur false
    = parseCSVLineLoop rest result (cur ++ s) false.
Proof.
  induction s as [|c r IH]; intros rest result cur H.
  - cbn [append]. now rewrite sapp_nil_r.
  - cbn [noneOf] in H. apply andb_true_iff in H. destruct H as [Hc Hr].
    apply negb_true_iff, quoteOrComma_split in Hc. destruct Hc as [Hq Hcomma].
    cbn [append parseCSVLineLoop]. rewrite Hq, Hcomma. cbn [andb].
    rewrite IH by exact Hr. now rewrite sapp_assoc.
Qed.

Lemma loop_inside :
  forall s rest result cur,
    noneOf isQuote s = true ->
    noLeadingQuote rest = true ->
    parseCSVLineLoop (s ++ String quoteChar rest) result cur true
    = parseCSVLineLoop rest result (cur ++ s) false.
Proof.
  induction s as [|c r IH]; intros rest result cur H Hrest.
  - cbn [append parseCSVLineLoop]. rewrite Ascii.eqb_refl, sapp_nil_r.
    destruct rest as [|nextChar rest']; [reflexivity|].
    cbn [noLeadingQuote] in Hrest. unfold isQuote in Hrest.
    apply negb_true_iff in Hrest. now rewrite Hrest.
  - cbn [noneOf] in H. apply andb_true_iff in H. destruct H as [Hc Hr].
    unfold isQuote in Hc. apply negb_true_iff in Hc.
    cbn [append parseCSVLineLoop]. rewrite Hc. cbn [negb].
    rewrite andb_false_r.
    rewrite IH by assumption. now rewrite sapp_assoc.
Qed.

Lemma loop_field (f : csvField) (rest : string) (result : list string) (cur : string) :
  fieldOk f = true ->
  noLeadingQuote rest = true ->
  parseCSVLineLoop (fieldText f ++ rest) result cur false
  = parseCSVLineLoop rest result (cur ++ fieldValue f) false.
Proof.
  intros Hok Hrest. destruct f as [s|s]; cbn [fieldOk fieldText fieldValue] in *.
  - now apply loop_plain.
  - unfold ExportService.quoted, dq.
    cbn [append]. rewrite sapp_assoc. cbn [append parseCSVLineLoop].
    rewrite Ascii.eqb_refl. cbn [negb].
    now apply loop_inside.
Qed.

Lemma loop_fields :
  forall fs result,
    fs <> [] ->
    forallb fieldOk fs = true ->
    parseCSVLineLoop (JS.join "," (map fieldText fs)) result EmptyString false
    = (result ++ map (fun f => JS.trim (fieldValue f)) fs)%list.
Proof.
  induction fs as [|f fs IH]; intros result Hne Hok; [contradiction|].
  cbn [forallb] in Hok. apply andb_true_iff in Hok. destruct Hok as [Hf Hfs].
  destruct fs as [|g fs'].
  - cbn [map JS.join].
    rewrite <- (sapp_nil_r (fieldText f)).
    rewrite (loop_field f "" result "" Hf eq_refl). reflexivity.
  - change (JS.join "," (map fieldText (f :: g :: fs')))
      with (fieldText f ++ String "," (JS.join "," (map fieldText (g :: fs'))))%string.
    rewrite (loop_field f (String "," (JS.join "," (map fieldText (g :: fs'))))
               result "" Hf eq_refl).
    cbn [append parseCSVLineLoop].
    change (Ascii.eqb "," quoteChar) with false.
    change (Ascii.eqb "," ",") with true. cbn [negb andb].
    rewrite IH by (try discriminate; exact Hfs).
    cbn [map]. now rewrite <- app_assoc.
Qed.

Lemma incomeFields_ok (income : ExportService.Income) :
  incomeExportable income = true -> forallb fieldOk (incomeFields income) = true.
Proof.
  unfold incomeExportable. intros H.
  repeat (apply andb_true_iff in H; destruct H as [H ?]).
  cbn [incomeFields forallb fieldOk].
  rewrite plain_toString.
  repeat (apply andb_true_iff; split); try assumption; try reflexivity.
  - destruct (ExportService.i_frequency income); reflexivity.
  - destruct (ExportService.i_isActive income); reflexivity.
Qed.

Lemma expenseFields_ok (expense : ExportService.Expense) :
  expenseExportable expense = true -> forallb fieldOk (expenseFields expense) = true.
Proof.
  unfold expenseExportable. intros H.
  repeat (apply andb_true_iff in H; destruct H as [H ?]).
  cbn [expenseFields forallb fieldOk].
  rewrite plain_toString.
  repeat (apply andb_true_iff; split); try assumption; try reflexivity.
  - destruct (ExportService.e_frequency expense); reflexivity.
  - destruct (ExportService.e_isActive expense); reflexivity.
Qed.

Lemma incomeRow_tokens (income : ExportService.Income) :
  incomeExportable income = true ->
  parseCSVLine (ExportService.incomeRow income)
  = map (fun f => JS.trim (fieldValue f)) (incomeFields income).
Proof.
  intros H. unfold parseCSVLine, ExportService.incomeRow.
  change (ExportService.incomeCells income) with (map fieldText (incomeFields income)).
  rewrite loop_fields; [reflexivity | discriminate | now apply incomeFields_ok].
Qed.

Lemma expenseRow_tokens (expense : ExportService.Expense) :
  expenseExportable expense = true ->
  parseCSVLine (ExportService.expenseRow expense)
  = map (fun f => JS.trim (fieldValue f)) (expenseFields expense).
Proof.
  intros H. unfold parseCSVLine, ExportService.expenseRow.
  change (ExportService.expenseCells expense) with (map fieldText (expenseFields expense)).
  rewrite loop_fields; [reflexivity | discriminate | now apply expenseFields_ok].
Qed.

(** X17. The line [exportAsCSV] writes for an income is read back by the
    tokenizer as its nine cells, each trimmed, the quotes around name,
    category and notes removed and the commas inside them kept, provided
    those three hold no double quote and the dates neither a double quote
    nor a comma.  The same holds for an expense line. *)
Theorem exported_line_reads_back :
  (forall income,
      incomeExportable income = true ->
      parseCSVLine (ExportService.incomeRow income)
      = map JS.trim
          [ "Income";
            ExportService.i_name income;
            JSNumber.toString (ExportService.i_amount income);
            ExportService.frequencyText (ExportService.i_frequency income);
            ExportService.i_category income;
            ExportService.statusText (ExportService.i_isActive income);
            ExportService.i_startDate income;
            JS.orElseOpt (ExportService.i_endDate income) "";
            JS.orElseOpt (ExportService.i_notes income) "" ])
  /\ (forall expense,
         expenseExportable expense = true ->
         parseCSVLine (ExportService.expenseRow expense)
         = map JS.trim
             [ "Expense";
               ExportService.e_name expense;
               JSNumber.toString (ExportService.e_amount expense);
               ExportService.frequencyText (ExportService.e_frequency expense);
               ExportService.e_category expense;
               ExportService.statusText (ExportService.e_isActive expense);
               JS.orElseOpt (ExportService.e_dueDate expense) "";
               "";
               JS.orElseOpt (ExportService.e_notes expense) "" ]).
Proof.
  split.
  - intros income H. now rewrite (incomeRow_tokens income H).
  - intros expense H. now rewrite (expenseRow_tokens expense H).
Qed.

Lemma exported_line_reads_back_witness :
  let income :=
    {| ExportService.i_id := "1";
       ExportService.i_name := "Salary, main job";
       ExportService.i_amount := JSNumber.Dec false 5000 0;
       ExportService.i_frequency := ExportService.monthly;
       ExportService.i_category := "Job";
       ExportService.i_startDate := "2025-01-01";
       ExportService.i_endDate := None;
       ExportService.i_isActive := true;
       ExportService.i_notes := None;
       ExportService.i_createdAt := "2025-01-01";
       ExportService.i_updatedAt := "2025-01-01" |} in
  incomeExportable income = true /\
  parseCSVLine (ExportService.incomeRow income)
  = ["Income"; "Salary, main job"; "5000"; "monthly"; "Job"; "Active";
     "2025-01-01"; ""; ""].
Proof.
  cbv zeta. split; [vm_compute; reflexivity|].
  match goal with
  | |- parseCSVLine (ExportService.incomeRow ?i) = _ =>
      rewrite (proj1 exported_line_reads_back i eq_refl)
  end.
  vm_compute. reflexivity.
Defined.

(* ================================================================= *)
(** ** Exported lines read back by the parser *)

Lemma exportMapping_eq :
  mapping (detectColumns exportHeaders)
  = [(0, T_type); (1, T_description); (2, T_amount); (3, T_frequency);
     (4, T_category); (5, T_description); (6, T_date); (7, T_date);
     (8, T_description)]%nat.
Proof. vm_compute. reflexivity. Qed.

Lemma export_mapRow (c0 c1 c2 c3 c4 c5 c6 c7 c8 : string) (hs : list string) :
  mapRow [c0; c1; c2; c3; c4; c5; c6; c7; c8] (mapping (detectColumns exportHeaders)) hs
  = [ ("Type", c0);
      ("Name", JS.orElse c8 (JS.orElse c5 (JS.orElse c1 "")));
      ("Amount", c2); ("Frequency", c3); ("Category", c4); ("Date", c7) ].
Proof.
  rewrite exportMapping_eq. unfold mapRow.
  cbn [fold_left mapCell cell nth_error JS.orElseOpt].
  rewrite !orElse_empty_r.
  cbn [set get String.eqb Ascii.eqb Bool.eqb JS.orElseOpt].
  rewrite !orElse_empty_r. reflexivity.
Qed.

Lemma orElse_truthy (a b : string) :
  JS.truthy b = true -> JS.truthy (JS.orElse a b) = true.
Proof. intros Hb. unfold JS.orElse. destruct (JS.truthy a) eqn:E; assumption. Qed.

Lemma status_trimmed (isActive : bool) :
  JS.trim (ExportService.statusText isActive) = ExportService.statusText isActive
  /\ JS.truthy (ExportService.statusText isActive) = true.
Proof. destruct isActive; split; reflexivity. Qed.

Lemma orElse_status (a b : string) (isActive : bool) :
  JS.orElse a (JS.orElse (ExportService.statusText isActive) b)
  = JS.orElse a (ExportService.statusText isActive).
Proof.
  now rewrite (truthy_orElse (ExportService.statusText isActive) b
                 (proj2 (status_trimmed isActive))).
Qed.

Lemma bankRow_of_export (c0 c2 c3 c4 c7 name : string) :
  JS.truthy c0 = true ->
  JS.truthy name = true ->
  let row := bankRow [ ("Type", c0); ("Name", name); ("Amount", c2);
                       ("Frequency", c3); ("Category", c4); ("Date", c7) ] in
  get row "Type" = Some c0 /\ get row "Name" = Some name /\
  get row "Amount" = Some c2 /\ get row "Date" = Some c7.
Proof.
  intros H0 Hname.
  set (r := [ ("Type", c0); ("Name", name); ("Amount", c2);
              ("Frequency", c3); ("Category", c4); ("Date", c7) ]).
  cbv zeta.
  assert (Hi : inferDebitCredit r = r) by reflexivity.
  assert (Ht : get r "Type" = Some c0) by reflexivity.
  assert (Hn : get r "Name" = Some name) by reflexivity.
  assert (Ha : get r "Amount" = Some c2) by reflexivity.
  assert (Hd : get r "Date" = Some c7) by reflexivity.
  unfold bankRow. rewrite Hi. unfold bankRow_defaults.
  rewrite (setDefault_present r "Type" "Expense" c0 Ht H0).
  clearbody r.
  assert (Hn' : get (setDefault (setDefault r "Frequency" "one-time") "Category" "Other")
                  "Name" = Some name) by (now autorewrite with row).
  rewrite (setDefault_present _ "Name" "Transaction" name Hn' Hname).
  repeat split; now autorewrite with row.
Qed.

(** X18. Reading the application's own export back does not restore the
    names.  The exported header is detected as a bank statement, in which
    the columns Name, Status and Notes are all typed [description] and
    Start Date and End Date both [date].  So the row built from an exported
    income line has as Name its notes when they are not blank and its
    status otherwise, never its name as such, and as Date its end date;
    the row built from an expense line has the same Name and an empty
    Date. *)
Theorem exported_line_reimported :
  detectedFormat (detectColumns exportHeaders) = BankStatement
  /\ (forall income,
         incomeExportable income = true ->
         let row := reimportedLine (ExportService.incomeRow income) in
         get row "Type" = Some "Income" /\
         get row "Name"
         = Some (JS.orElse (JS.trim (JS.orElseOpt (ExportService.i_notes income) ""))
                   (ExportService.statusText (ExportService.i_isActive income))) /\
         get row "Amount"
         = Some (JS.trim (JSNumber.toString (ExportService.i_amount income))) /\
         get row "Date"
         = Some (JS.trim (JS.orElseOpt (ExportService.i_endDate income) "")))
  /\ (forall expense,
         expenseExportable expense = true ->
         let row := reimportedLine (ExportService.expenseRow expense) in
         get row "Type" = Some "Expense" /\
         get row "Name"
         = Some (JS.orElse (JS.trim (JS.orElseOpt (ExportService.e_notes expense) ""))
                   (ExportService.statusText (ExportService.e_isActive expense))) /\
         get row "Amount"
         = Some (JS.trim (JSNumber.toString (ExportService.e_amount expense))) /\
         get row "Date" = Some "").
Proof.
  split; [vm_compute; reflexivity|]. split.
  - intros income H. cbv zeta. unfold reimportedLine.
    rewrite (incomeRow_tokens income H).
    cbn [incomeFields map fieldValue]. rewrite export_mapRow.
    rewrite (proj1 (status_trimmed _)), orElse_status.
    change (JS.trim "Income") with "Income".
    apply bankRow_of_export; [reflexivity|].
    apply orElse_truthy, status_trimmed.
  - intros expense H. cbv zeta. unfold reimportedLine.
    rewrite (expenseRow_tokens expense H).
    cbn [expenseFields map fieldValue]. rewrite export_mapRow.
    rewrite (proj1 (status_trimmed _)), orElse_status.
    change (JS.trim "Expense") with "Expense".
    change (JS.trim "") with "".
    apply bankRow_of_export; [reflexivity|].
    apply orElse_truthy, status_trimmed.
Qed.

Lemma exported_line_reimported_witness :
  let income :=
    {| ExportService.i_id := "1";
       ExportService.i_name := "Salary";
       ExportService.i_amount := JSNumber.Dec false 5000 0;
       ExportService.i_frequency := ExportService.monthly;
       ExportService.i_category := "Job";
       ExportService.i_startDate := "2025-01-01";
       ExportService.i_endDate := None;
       ExportService.i_isActive := true;
       ExportService.i_notes := None;
       ExportService.i_createdAt := "2025-01-01";
       ExportService.i_updatedAt := "2025-01-01" |} in
  incomeExportable income = true /\
  get (reimportedLine (ExportService.incomeRow income)) "Name" = Some "Active" /\
  get (reimportedLine (ExportService.incomeRow income)) "Date" = Some "".
Proof.
  cbv zeta. split; [vm_compute; reflexivity|].
  match goal with
  | |- get (reimportedLine (ExportService.incomeRow ?i)) _ = _ /\ _ =>
      destruct (proj1 (proj2 exported_line_reimported) i eq_refl)
        as (_ & Hname & _ & Hdate)
  end.
  cbv zeta in *. split; [rewrite Hname | rewrite Hdate]; vm_compute; reflexivity.
Defined.

(* ================================================================= *)
(** ** A whole export read back by [parseCSV] *)

Lemma newline_zeros (n : nat) : noneOf isNewline (JSNumber.zeros n) = true.
Proof. induction n as [|n IH]; [reflexivity|]. cbn [JSNumber.zeros noneOf]. now rewrite IH. Qed.

Lemma newline_string_of_uint (d : Decimal.uint) :
  noneOf isNewline (NilEmpty.string_of_uint d) = true.
Proof.
  induction d; cbn [NilEmpty.string_of_uint noneOf]; try rewrite IHd; reflexivity.
Qed.

Lemma newline_toString (x : JSNumber.number) :
  noneOf isNewline (JSNumber.toString x) = true.
Proof.
  destruct x as [|negative|negative m e].
  - reflexivity.
  - destruct negative; reflexivity.
  - unfold JSNumber.toString.
    destruct (N.eqb m 0); [reflexivity|]. cbv zeta.
    assert (Hdigits : noneOf isNewline
                        (JS.rev (JSNumber.dropZeros
                                   (JS.rev (NilEmpty.string_of_uint (N.to_uint m)))))
                      = true).
    { rewrite noneOf_rev. apply noneOf_dropZeros.
      rewrite noneOf_rev. apply newline_string_of_uint. }
    set (digits := JS.rev (JSNumber.dropZeros
                             (JS.rev (NilEmpty.string_of_uint (N.to_uint m))))) in *.
    set (k := Z.of_nat (String.length digits)).
    set (n := k + (e + (Z.of_nat (String.length
                                    (NilEmpty.string_of_uint (N.to_uint m))) - k))).
    assert (Hsign : forall z : Z,
               noneOf isNewline (if z <? 0 then "-" else "+") = true).
    { intros z. destruct (z <? 0); reflexivity. }
    assert (Hnat : forall j, noneOf isNewline (JSNumber.natString j) = true).
    { intros j. apply newline_string_of_uint. }
    assert (Hbody : forall body, noneOf isNewline body = true ->
                    noneOf isNewline (if negative then "-" ++ body else body) = true).
    { intros body Hb. destruct negative; [|exact Hb].
      rewrite noneOf_app, Hb. reflexivity. }
    apply Hbody.
    destruct ((k <=? n) && (n <=? 21))%bool.
    { rewrite noneOf_app, Hdigits, newline_zeros. reflexivity. }
    destruct ((0 <? n) && (n <=? 21))%bool.
    { rewrite !noneOf_app.
      rewrite (noneOf_takeString _ _ digits Hdigits).
      rewrite (noneOf_dropString _ _ digits Hdigits). reflexivity. }
    destruct ((-6 <? n) && (n <=? 0))%bool.
    { rewrite !noneOf_app, Hdigits, newline_zeros. reflexivity. }
    destruct (k =? 1).
    + rewrite !noneOf_app, Hdigits, Hsign, Hnat. reflexivity.
    + rewrite !noneOf_app, Hsign, Hnat.
      rewrite (noneOf_takeString _ 1 digits Hdigits).
      rewrite (noneOf_dropString _ 1 digits Hdigits). reflexivity.
Qed.

Lemma newline_quoted (s : string) :
  noneOf isNewline s = true -> noneOf isNewline (ExportService.quoted s) = true.
Proof.
  intros H. unfold ExportService.quoted. rewrite !noneOf_app, H. reflexivity.
Qed.

Lemma incomeRow_one_line (income : ExportService.Income) :
  incomeOnOneLine income = true ->
  noneOf isNewline (ExportService.incomeRow income) = true.
Proof.
  unfold incomeOnOneLine. intros H.
  repeat (apply andb_true_iff in H; destruct H as [H ?]).
  unfold ExportService.incomeRow, ExportService.incomeCells. cbn [JS.join].
  rewrite !noneOf_app, !newline_quoted, newline_toString by assumption.
  repeat match goal with Hx : noneOf isNewline _ = true |- _ => rewrite Hx; clear Hx end.
  destruct (ExportService.i_frequency income), (ExportService.i_isActive income);
    reflexivity.
Qed.

Lemma expenseRow_one_line (expense : ExportService.Expense) :
  expenseOnOneLine expense = true ->
  noneOf isNewline (ExportService.expenseRow expense) = true.
Proof.
  unfold expenseOnOneLine. intros H.
  repeat (apply andb_true_iff in H; destruct H as [H ?]).
  unfold ExportService.expenseRow, ExportService.expenseCells. cbn [JS.join].
  rewrite !noneOf_app, !newline_quoted, newline_toString by assumption.
  repeat match goal with Hx : noneOf isNewline _ = true |- _ => rewrite Hx; clear Hx end.
  destruct (ExportService.e_frequency expense), (ExportService.e_isActive expense);
    reflexivity.
Qed.

Lemma sapp_empty (a b : string) : (a ++ b)%string = "" -> b = "".
Proof. destruct a; [trivial | discriminate]. Qed.

Lemma trimEndRec_app (a b : string) :
  trimEndRec (a ++ b)
  = if String.eqb (trimEndRec b) "" then trimEndRec a else (a ++ trimEndRec b)%string.
Proof.
  induction a as [|c r IH].
  - cbn [append trimEndRec].
    destruct (String.eqb (trimEndRec b) "") eqn:E; [|reflexivity].
    now apply String.eqb_eq in E.
  - cbn [append trimEndRec]. rewrite IH.
    destruct (String.eqb (trimEndRec b) "") eqn:E; [reflexivity|].
    destruct (String.eqb (r ++ trimEndRec b) "") eqn:E'.
    + apply String.eqb_eq, sapp_empty in E'. rewrite E' in E. discriminate E.
    + now rewrite andb_false_r.
Qed.

Lemma keepsEnd_app (a b : string) : keepsEnd b -> keepsEnd (a ++ b).
Proof.
  intros [Hb Hne]. split.
  - rewrite trimEndRec_app, Hb.
    destruct (String.eqb b "") eqn:E; [|reflexivity].
    apply String.eqb_eq in E. contradiction.
  - intros H. apply sapp_empty in H. contradiction.
Qed.

Lemma keepsEnd_cons (c : ascii) (b : string) : keepsEnd b -> keepsEnd (String c b).
Proof. apply (keepsEnd_app (String c "") b). Qed.

Lemma keepsEnd_quote : keepsEnd dq.
Proof. split; [reflexivity | discriminate]. Qed.

Lemma keepsEnd_header : keepsEnd ExportService.csvHeader.
Proof. split; [vm_compute; reflexivity | discriminate]. Qed.

Lemma keepsEnd_quoted (s : string) : keepsEnd (ExportService.quoted s).
Proof.
  unfold ExportService.quoted. apply keepsEnd_app, keepsEnd_app, keepsEnd_quote.
Qed.

Lemma keepsEnd_incomeRow (income : ExportService.Income) :
  keepsEnd (ExportService.incomeRow income).
Proof.
  unfold ExportService.incomeRow, ExportService.incomeCells. cbn [JS.join].
  repeat apply keepsEnd_app. first [apply keepsEnd_quote | apply keepsEnd_quoted].
Qed.

Lemma keepsEnd_expenseRow (expense : ExportService.Expense) :
  keepsEnd (ExportService.expenseRow expense).
Proof.
  unfold ExportService.expenseRow, ExportService.expenseCells. cbn [JS.join].
  repeat apply keepsEnd_app. first [apply keepsEnd_quote | apply keepsEnd_quoted].
Qed.

Lemma keepsEnd_join (l : string) (ls : list string) :
  Forall keepsEnd (l :: ls) -> keepsEnd (JS.join ExportService.nl (l :: ls)).
Proof.
  revert l. induction ls as [|l' ls IH]; intros l Hall.
  - cbn [JS.join]. now inversion Hall.
  - change (JS.join ExportService.nl (l :: l' :: ls))
      with (l ++ ExportService.nl ++ JS.join ExportService.nl (l' :: ls))%string.
    apply keepsEnd_app, keepsEnd_app, IH. now inversion Hall.
Qed.

Lemma fold_left_lines {A} (f : A -> string) :
  forall xs acc,
    fold_left (fun csv x => csv ++ f x ++ ExportService.nl)%string xs acc
    = (acc ++ withNewlines (map f xs))%string.
Proof.
  induction xs as [|x xs IH]; intros acc; cbn [fold_left map withNewlines].
  - now rewrite sapp_nil_r.
  - rewrite IH, !sapp_assoc. reflexivity.
Qed.

Lemma withNewlines_app (a b : list string) :
  withNewlines (a ++ b) = (withNewlines a ++ withNewlines b)%string.
Proof.
  induction a as [|x a IH]; [reflexivity|].
  cbn [app withNewlines]. now rewrite IH, !sapp_assoc.
Qed.

Lemma withNewlines_join (l : string) (ls : list string) :
  withNewlines (l :: ls) = (JS.join ExportService.nl (l :: ls) ++ ExportService.nl)%string.
Proof.
  revert l. induction ls as [|l' ls IH]; intros l.
  - cbn [withNewlines JS.join]. reflexivity.
  - change (JS.join ExportService.nl (l :: l' :: ls))
      with (l ++ ExportService.nl ++ JS.join ExportService.nl (l' :: ls))%string.
    cbn [withNewlines] in *. rewrite (IH l'), !sapp_assoc. reflexivity.
Qed.

Lemma exportAsCSV_text (incomes : list ExportService.Income)
  (expenses : list ExportService.Expense) :
  ExportService.exportAsCSV incomes expenses
  = (JS.join ExportService.nl (ExportService.csvHeader :: exportedLines incomes expenses)
     ++ ExportService.nl)%string.
Proof.
  unfold ExportService.exportAsCSV, exportedLines. cbv zeta.
  rewrite !fold_left_lines, <- withNewlines_join.
  cbn [withNewlines]. rewrite withNewlines_app, !sapp_assoc. reflexivity.
Qed.

Lemma trim_exported (l : string) (ls : list string) :
  noLeadingSpace l = true ->
  l <> "" ->
  Forall keepsEnd (l :: ls) ->
  JS.trim (JS.join ExportService.nl (l :: ls) ++ ExportService.nl)
  = JS.join ExportService.nl (l :: ls).
Proof.
  intros Hlead Hne Hall. unfold JS.trim.
  rewrite trimStart_fixed.
  - rewrite trimEnd_rec, trimEndRec_app.
    change (String.eqb (trimEndRec ExportService.nl) "") with true. cbv iota.
    apply (keepsEnd_join l ls Hall).
  - destruct l as [|c r]; [contradiction|].
    destruct ls; exact Hlead.
Qed.

Lemma splitAux_line (sep : ascii) :
  forall s cur rest,
    noneOf (fun c => Ascii.eqb c sep) s = true ->
    JS.splitAux sep cur (s ++ String sep rest)
    = (JS.rev cur ++ s)%string :: JS.splitAux sep EmptyString rest.
Proof.
  induction s as [|c r IH]; intros cur rest H; cbn [append JS.splitAux].
  - now rewrite Ascii.eqb_refl, sapp_nil_r.
  - cbn [noneOf] in H. apply andb_true_iff in H. destruct H as [Hc Hr].
    apply negb_true_iff in Hc. rewrite Hc.
    rewrite IH by exact Hr. cbn [JS.rev]. now rewrite sapp_assoc.
Qed.

Lemma split_join (l : string) (ls : list string) :
  forallb (noneOf isNewline) (l :: ls) = true ->
  JS.split newline (JS.join ExportService.nl (l :: ls)) = l :: ls.
Proof.
  unfold JS.split. revert l. induction ls as [|l' ls IH]; intros l H.
  - cbn [JS.join]. cbn [forallb] in H. rewrite andb_true_r in H.
    now rewrite (splitAux_no_separator newline l EmptyString H).
  - change (JS.join ExportService.nl (l :: l' :: ls))
      with (l ++ String newline (JS.join ExportService.nl (l' :: ls)))%string.
    cbn [forallb] in H. apply andb_true_iff in H. destruct H as [Hl Hrest].
    rewrite (splitAux_line newline l EmptyString _ Hl).
    cbn [JS.rev append]. f_equal. now apply IH.
Qed.

Lemma exportedLines_one_line (incomes : list ExportService.Income)
  (expenses : list ExportService.Expense) :
  forallb incomeOnOneLine incomes = true ->
  forallb expenseOnOneLine expenses = true ->
  forallb (noneOf isNewline) (exportedLines incomes expenses) = true.
Proof.
  intros Hi He. unfold exportedLines. rewrite forallb_app. apply andb_true_iff. split.
  - rewrite forallb_forall in *. intros line Hin.
    apply in_map_iff in Hin. destruct Hin as (income & <- & Hin).
    apply incomeRow_one_line. now apply Hi.
  - rewrite forallb_forall in *. intros line Hin.
    apply in_map_iff in Hin. destruct Hin as (expense & <- & Hin).
    apply expenseRow_one_line. now apply He.
Qed.

Lemma exportedLines_keepEnd (incomes : list ExportService.Income)
  (expenses : list ExportService.Expense) :
  Forall keepsEnd (exportedLines incomes expenses).
Proof.
  unfold exportedLines. apply Forall_app. split; apply Forall_forall; intros line Hin;
    apply in_map_iff in Hin.
  - destruct Hin as (income & <- & _). apply keepsEnd_incomeRow.
  - destruct Hin as (expense & <- & _). apply keepsEnd_expenseRow.
Qed.

Lemma exportedLines_not_empty_rows (incomes : list ExportService.Income)
  (expenses : list ExportService.Expense) :
  forallb incomeExportable incomes = true ->
  forallb expenseExportable expenses = true ->
  filter (fun rawRow => negb (isEmptyRow rawRow))
    (map parseCSVLine (exportedLines incomes expenses))
  = map parseCSVLine (exportedLines incomes expenses).
Proof.
  intros Hi He. apply forallb_filter_id. rewrite forallb_forall.
  intros cells Hin. apply in_map_iff in Hin. destruct Hin as (line & <- & Hin).
  unfold exportedLines in Hin. apply in_app_iff in Hin.
  rewrite forallb_forall in Hi, He.
  destruct Hin as [Hin|Hin]; apply in_map_iff in Hin.
  - destruct Hin as (income & <- & Hin).
    rewrite (incomeRow_tokens income (Hi income Hin)). reflexivity.
  - destruct Hin as (expense & <- & Hin).
    rewrite (expenseRow_tokens expense (He expense Hin)). reflexivity.
Qed.

Lemma export_format : detectedFormat (detectColumns exportHeaders) = BankStatement.
Proof. vm_compute. reflexivity. Qed.

(** X19. Parsing the text [exportAsCSV] writes for any incomes and
    expenses whose text fields hold no double quote and no newline (and
    whose dates hold no comma) never throws; the file is taken for a bank
    statement, and the dataset has exactly one row per exported record, in
    the order written: the row the bank-statement extractor builds from
    that record's line. *)
Theorem export_then_parse (incomes : list ExportService.Income)
  (expenses : list ExportService.Expense) :
  forallb incomeExportable incomes = true ->
  forallb expenseExportable expenses = true ->
  forallb incomeOnOneLine incomes = true ->
  forallb expenseOnOneLine expenses = true ->
  exists d,
    parseCSV (ExportService.exportAsCSV incomes expenses) = Returns d
    /\ format d = BankStatement
    /\ rows d = map reimportedLine (exportedLines incomes expenses)
    /\ List.length (rows d) = (List.length incomes + List.length expenses)%nat.
Proof.
  intros Hie Hee Hil Hel.
  unfold parseCSV. rewrite exportAsCSV_text.
  rewrite trim_exported;
    [ | reflexivity | discriminate
      | constructor; [apply keepsEnd_header | apply exportedLines_keepEnd] ].
  rewrite split_join.
  2:{ cbn [forallb]. rewrite (exportedLines_one_line incomes expenses Hil Hel).
      reflexivity. }
  cbn [map]. cbv beta iota zeta.
  fold exportHeaders. rewrite export_format.
  unfold parseBankStatementCSV. cbn [skipn].
  pose proof (bankLoop_rows exportHeaders (detectColumns exportHeaders)
                (map parseCSVLine (exportedLines incomes expenses)) []
                [exportHeaders]) as Hrows.
  destruct (bankLoop _ _ _ _ _) as [rs raw].
  cbn [fst app] in Hrows. subst rs.
  eexists. split; [reflexivity|]. cbn [format rows].
  split; [reflexivity|].
  rewrite (exportedLines_not_empty_rows incomes expenses Hie Hee), map_map.
  split; [reflexivity|].
  unfold exportedLines. now rewrite !length_map, length_app, !length_map.
Qed.

Lemma export_then_parse_witness :
  let income :=
    {| ExportService.i_id := "1";
       ExportService.i_name := "Salary";
       ExportService.i_amount := JSNumber.Dec false 5000 0;
       ExportService.i_frequency := ExportService.monthly;
       ExportService.i_category := "Job";
       ExportService.i_startDate := "2025-01-01";
       ExportService.i_endDate := None;
       ExportService.i_isActive := true;
       ExportService.i_notes := Some "main job, full time";
       ExportService.i_createdAt := "2025-01-01";
       ExportService.i_updatedAt := "2025-01-01" |} in
  let expense :=
    {| ExportService.e_id := "2";
       ExportService.e_name := "Rent";
       ExportService.e_amount := JSNumber.Dec false 12005 (-1);
       ExportService.e_frequency := ExportService.monthly;
       ExportService.e_category := "Housing";
       ExportService.e_dueDate := Some "2025-01-05";
       ExportService.e_isActive := true;
       ExportService.e_notes := None;
       ExportService.e_createdAt := "2025-01-01";
       ExportService.e_updatedAt := "2025-01-01" |} in
  map (fun row => (get row "Type", get row "Name", get row "Amount", get row "Date"))
      (rowsOf (parseCSV (ExportService.exportAsCSV [income] [expense])))
  = [ (Some "Income", Some "main job, full time", Some "5000", Some "");
      (Some "Expense", Some "Active", Some "1200.5", Some "") ]
  /\ exists d,
       parseCSV (ExportService.exportAsCSV [income] [expense]) = Returns d /\
       format d = BankStatement /\
       List.length (rows d) = 2%nat.
Proof.
  cbv zeta. split; [vm_compute; reflexivity|].
  match goal with
  | |- exists d, parseCSV (ExportService.exportAsCSV ?incs ?exps) = _ /\ _ =>
      destruct (export_then_parse incs exps eq_refl eq_refl eq_refl eq_refl)
        as (d & Hd & Hf & _ & Hlen)
  end.
  exists d. split; [exact Hd|]. split; [exact Hf | exact Hlen].
Defined.

(* ================================================================= *)
(** ** What a valid bank-statement row holds *)




(* ================================================================= *)
(** ** Header normalization *)

Lemma lowerChar_not_upper (c : ascii) : isUpper (JS.lowerChar c) = false.
Proof. destruct c as [[] [] [] [] [] [] [] []]; reflexivity. Qed.

Lemma lowerChar_fixed (c : ascii) : isUpper c = false -> JS.lowerChar c = c.
Proof. unfold isUpper, JS.lowerChar. cbv zeta. now intros ->. Qed.

Lemma toLowerCase_not_upper (s : string) : noneOf isUpper (JS.toLowerCase s) = true.
Proof.
  induction s as [|c r IH]; [reflexivity|].
  cbn [JS.toLowerCase noneOf]. now rewrite lowerChar_not_upper, IH.
Qed.

Lemma toLowerCase_fixed (s : string) : noneOf isUpper s = true -> JS.toLowerCase s = s.
Proof.
  induction s as [|c r IH]; intros H; [reflexivity|].
  cbn [noneOf] in H. apply andb_true_iff in H. destruct H as [Hc Hr].
  apply negb_true_iff in Hc.
  cbn [JS.toLowerCase]. now rewrite (lowerChar_fixed c Hc), IH.
Qed.

Lemma noneOf_trimStart (cls : ascii -> bool) (s : string) :
  noneOf cls s = true -> noneOf cls (JS.trimStart s) = true.
Proof.
  induction s as [|c r IH]; intros H; [reflexivity|].
  cbn [JS.trimStart]. destruct (JS.isSpace c); [|exact H].
  cbn [noneOf] in H. apply andb_true_iff in H. now apply IH.
Qed.

Lemma noneOf_trimEndRec (cls : ascii -> bool) (s : string) :
  noneOf cls s = true -> noneOf cls (trimEndRec s) = true.
Proof.
  induction s as [|c r IH]; intros H; [reflexivity|].
  cbn [noneOf] in H. apply andb_true_iff in H. destruct H as [Hc Hr].
  cbn [trimEndRec]. destruct (JS.isSpace c && String.eqb (trimEndRec r) "")%bool;
    [reflexivity|].
  cbn [noneOf]. now rewrite Hc, IH.
Qed.

Lemma noneOf_trim (cls : ascii -> bool) (s : string) :
  noneOf cls s = true -> noneOf cls (JS.trim s) = true.
Proof.
  intros H. unfold JS.trim. rewrite trimEnd_rec.
  now apply noneOf_trimEndRec, noneOf_trimStart.
Qed.

Lemma noneOf_replaceRuns (cls sep : ascii -> bool) :
  cls " "%char = false ->
  forall s inRun, noneOf cls s = true -> noneOf cls (JS.replaceRuns sep inRun s) = true.
Proof.
  intros Hsp. induction s as [|c r IH]; intros inRun H; [reflexivity|].
  cbn [noneOf] in H. apply andb_true_iff in H. destruct H as [Hc Hr].
  cbn [JS.replaceRuns]. destruct (sep c).
  - destruct inRun; [now apply IH|]. cbn [noneOf]. rewrite Hsp. now apply IH.
  - cbn [noneOf]. rewrite Hc. now apply IH.
Qed.

Lemma space_is_separator (c : ascii) : JS.isSpace c = true -> isSeparator c = true.
Proof. unfold isSeparator. now intros ->. Qed.

Lemma tidy_weaken (s : string) : tidy true s = true -> tidy false s = true.
Proof.
  destruct s as [|c r]; [reflexivity|]. cbn [tidy].
  destruct (isSeparator c); [|trivial].
  rewrite andb_false_r. discriminate.
Qed.

Lemma replaceRuns_tidy :
  forall s inRun, tidy inRun (JS.replaceRuns isSeparator inRun s) = true.
Proof.
  induction s as [|c r IH]; intros inRun; [reflexivity|].
  cbn [JS.replaceRuns]. destruct (isSeparator c) eqn:E.
  - destruct inRun; [apply IH|].
    cbn [tidy]. change (isSeparator " ") with true. cbv iota.
    now rewrite IH.
  - cbn [tidy]. rewrite E. destruct inRun; apply IH.
Qed.

Lemma tidy_fixed (cls : ascii -> bool) :
  (forall c, cls c = true -> isSeparator c = true) ->
  cls " "%char = true ->
  forall s inRun, tidy inRun s = true -> JS.replaceRuns cls inRun s = s.
Proof.
  intros Hsub Hsp. induction s as [|c r IH]; intros inRun H; [reflexivity|].
  cbn [tidy] in H. cbn [JS.replaceRuns].
  destruct (isSeparator c) eqn:E.
  - apply andb_true_iff in H. destruct H as [H Hr].
    apply andb_true_iff in H. destruct H as [Hc Hrun].
    apply Ascii.eqb_eq in Hc. subst c.
    apply negb_true_iff in Hrun. subst inRun.
    rewrite Hsp. now rewrite (IH true Hr).
  - destruct (cls c) eqn:Ec.
    + apply Hsub in Ec. rewrite Ec in E. discriminate E.
    + now rewrite (IH false H).
Qed.

Lemma tidy_trimStart (s : string) : tidy false s = true -> tidy false (JS.trimStart s) = true.
Proof.
  induction s as [|c r IH]; intros H; [reflexivity|].
  cbn [JS.trimStart]. destruct (JS.isSpace c) eqn:E; [|exact H].
  cbn [tidy] in H. rewrite (space_is_separator c E) in H.
  apply andb_true_iff in H. destruct H as [_ Hr].
  now apply IH, tidy_weaken.
Qed.

Lemma tidy_trimEndRec :
  forall s afterSeparator,
    tidy afterSeparator s = true -> tidy afterSeparator (trimEndRec s) = true.
Proof.
  induction s as [|c r IH]; intros afterSeparator H; [reflexivity|].
  cbn [trimEndRec]. destruct (JS.isSpace c && String.eqb (trimEndRec r) "")%bool;
    [reflexivity|].
  cbn [tidy] in *. destruct (isSeparator c).
  - apply andb_true_iff in H. destruct H as [H Hr]. rewrite H. now apply IH.
  - now apply IH.
Qed.

Lemma normalizeHeader_idempotent (header : string) :
  normalizeHeader (normalizeHeader header) = normalizeHeader header.
Proof.
  unfold normalizeHeader at 2 3.
  set (y := JS.replaceRuns isSeparator false (JS.trim (JS.toLowerCase header))).
  assert (Hy : tidy false y = true) by apply replaceRuns_tidy.
  assert (Hlow : noneOf isUpper y = true).
  { apply noneOf_replaceRuns; [reflexivity|].
    apply noneOf_trim, toLowerCase_not_upper. }
  rewrite (tidy_fixed JS.isSpace space_is_separator eq_refl y false Hy).
  clearbody y.
  assert (Hn : tidy false (JS.trim y) = true).
  { unfold JS.trim. rewrite trimEnd_rec. now apply tidy_trimEndRec, tidy_trimStart. }
  unfold normalizeHeader.
  rewrite (toLowerCase_fixed (JS.trim y)) by now apply noneOf_trim.
  rewrite trim_idempotent.
  rewrite (tidy_fixed isSeparator (fun c H => H) eq_refl (JS.trim y) false Hn).
  rewrite (tidy_fixed JS.isSpace space_is_separator eq_refl (JS.trim y) false Hn).
  apply trim_idempotent.
Qed.

(** X22. Header normalization is idempotent, so a header and its
    normalized form are detected alike: same type, same confidence, same
    suggestions. *)
Theorem normalized_header_detected_alike (header : string) (index : nat)
  (allHeaders : list string) :
  normalizeHeader (normalizeHeader header) = normalizeHeader header
  /\ detectColumnType (normalizeHeader header) index allHeaders
     = detectColumnType header index allHeaders.
Proof.
  split; [apply normalizeHeader_idempotent|].
  unfold detectColumnType. now rewrite normalizeHeader_idempotent.
Qed.
